(** * TraidQuant: the backtest pipeline of [python/backtest.py]

    A shallow embedding of the stage functions [preprocess_data],
    [run_r_analysis], [run_matlab_simulation], [run_backtest] and of [main],
    followed by the properties the specification states about them.

    Numbers.  A pandas cell is a float64.  It is modelled as an exact rational
    extended with the two infinities and NaN (the missing marker); rounding,
    overflow and the sign of zero are not modelled.  Every arithmetic result
    is kept in lowest terms, so Leibniz equality of two cells is equality of
    the numbers they hold.  The two irrational primitives the code calls,
    square root and real power, are parameters of the model ([qsqrt], [qpow]);
    their IEEE special cases (NaN, infinities, negative arguments) are written
    out.

    Exceptions.  A Python expression that can raise evaluates to an [outcome];
    [try_except] is the [try: ... except Exception as e: ...] statement.

    Mutation.  [run_backtest] assigns columns of the frame it is given, so it
    is a computation in a state-and-exception monad over the frame. *)

From Stdlib Require Import QArith Qreduction Qround ZArith List String Bool Arith Lia.
Import ListNotations.

Set Implicit Arguments.

(* ------------------------------------------------------------------------- *)
(** ** Floating-point cells *)

Module Float.

Inductive fval : Type :=
| Num (q : Q)
| PInf
| NInf
| NaN.

Definition isnan (x : fval) : bool :=
  match x with NaN => true | _ => false end.

Definition isinf (x : fval) : bool :=
  match x with PInf | NInf => true | _ => false end.

Definition isfinite (x : fval) : bool :=
  match x with Num _ => true | _ => false end.

Definition of_nat (n : nat) : fval := Num (inject_Z (Z.of_nat n)).
Definition of_Z (z : Z) : fval := Num (inject_Z z).

Definition fneg (x : fval) : fval :=
  match x with
  | Num a => Num (Qred (- a))
  | PInf => NInf
  | NInf => PInf
  | NaN => NaN
  end.

Definition fadd (x y : fval) : fval :=
  match x, y with
  | NaN, _ | _, NaN => NaN
  | Num a, Num b => Num (Qred (a + b))
  | PInf, NInf | NInf, PInf => NaN
  | PInf, _ | _, PInf => PInf
  | NInf, _ | _, NInf => NInf
  end.

Definition fsub (x y : fval) : fval :=
  match x, y with
  | NaN, _ | _, NaN => NaN
  | Num a, Num b => Num (Qred (a - b))
  | PInf, PInf | NInf, NInf => NaN
  | PInf, _ | _, NInf => PInf
  | NInf, _ | _, PInf => NInf
  end.

(** An infinity of sign [pos] scaled by the finite factor [a]. *)
Definition inf_scaled (pos : bool) (a : Q) : fval :=
  match a ?= 0 with
  | Eq => NaN
  | Gt => if pos then PInf else NInf
  | Lt => if pos then NInf else PInf
  end.

Definition fmul (x y : fval) : fval :=
  match x, y with
  | NaN, _ | _, NaN => NaN
  | Num a, Num b => Num (Qred (a * b))
  | Num a, PInf | PInf, Num a => inf_scaled true a
  | Num a, NInf | NInf, Num a => inf_scaled false a
  | PInf, PInf | NInf, NInf => PInf
  | PInf, NInf | NInf, PInf => NInf
  end.

(** numpy division: a zero divisor gives an infinity (NaN for 0/0), it does
    not raise. *)
Definition fdiv (x y : fval) : fval :=
  match x, y with
  | NaN, _ | _, NaN => NaN
  | Num a, Num b =>
      if Qeq_bool b 0 then inf_scaled true a else Num (Qred (a / b))
  | Num _, _ => Num 0
  | PInf, Num b => if Qle_bool 0 b then PInf else NInf
  | NInf, Num b => if Qle_bool 0 b then NInf else PInf
  | _, _ => NaN
  end.

(** [x > y]; every comparison with NaN is false. *)
Definition fgtb (x y : fval) : bool :=
  match x, y with
  | NaN, _ | _, NaN => false
  | Num a, Num b => negb (Qle_bool a b)
  | PInf, PInf => false
  | PInf, _ => true
  | _, NInf => match x with NInf => false | _ => true end
  | _, _ => false
  end.

Definition one : fval := Num 1.
Definition zero : fval := Num 0.

End Float.
Import Float.

(* ------------------------------------------------------------------------- *)
(** ** Python exceptions *)

Module Py.

(** The exception classes the modelled code can meet; all of them derive from
    [Exception].  [EngineError] stands for whatever an external engine (rpy2,
    the MATLAB engine, the file readers) raises. *)
Inductive exn : Type :=
| KeyError (key : string)
| IndexError
| ZeroDivisionError
| ValueError
| FileNotFoundError
| EngineError (code : nat).

Inductive outcome (A : Type) : Type :=
| Return (a : A)
| Raise (e : exn).
Arguments Return {A} a.
Arguments Raise {A} e.

Definition bind {A B} (m : outcome A) (k : A -> outcome B) : outcome B :=
  match m with
  | Return a => k a
  | Raise e => Raise e
  end.

(** [try: body  except Exception as e: handler e] *)
Definition try_except {A} (body : outcome A) (handler : exn -> outcome A)
  : outcome A :=
  match body with
  | Return a => Return a
  | Raise e => handler e
  end.

Definition raises {A} (m : outcome A) : bool :=
  match m with Raise _ => true | Return _ => false end.

(** Python's [a / b] on integers. *)
Definition int_truediv (a : Z) (b : nat) : outcome Q :=
  match b with
  | O => Raise ZeroDivisionError
  | S _ => Return (Qred (inject_Z a / inject_Z (Z.of_nat b)))
  end.

(** A Python [dict] with string keys: insertion-ordered, a repeated key
    overwrites in place. *)
Section Dict.
Variable V : Type.

Definition dict := list (string * V).

Fixpoint dict_get (d : dict) (k : string) : option V :=
  match d with
  | [] => None
  | (k', v) :: d' => if String.eqb k' k then Some v else dict_get d' k
  end.

Fixpoint dict_set (d : dict) (k : string) (v : V) : dict :=
  match d with
  | [] => [(k, v)]
  | (k', v') :: d' =>
      if String.eqb k' k then (k', v) :: d' else (k', v') :: dict_set d' k v
  end.

Definition dict_keys (d : dict) : list string := map fst d.

(** A dict display [{k1: v1, ..., kn: vn}]. *)
Definition dict_of (items : list (string * V)) : dict :=
  fold_left (fun d kv => dict_set d (fst kv) (snd kv)) items [].
End Dict.

End Py.
Import Py.

Declare Scope py_scope.
Delimit Scope py_scope with py.
Notation "x <- m ;; k" := (bind m (fun x => k))
  (at level 61, m at next level, right associativity) : py_scope.

(* ------------------------------------------------------------------------- *)
(** ** numpy primitives *)

Module Numpy.

Definition is_integer (e : Q) : bool :=
  (Qnum e mod Zpos (Qden e) =? 0)%Z.

Definition to_integer (e : Q) : Z := (Qnum e / Zpos (Qden e))%Z.

Section Irrational.
(** Square root on the non-negative rationals and real power on a
    non-negative base with an exponent that is not an integer. *)
Variable qsqrt : Q -> Q.
Variable qpow : Q -> Q -> Q.

(** [np.sqrt] *)
Definition np_sqrt (x : fval) : fval :=
  match x with
  | Num q => if Qle_bool 0 q then Num (qsqrt q) else NaN
  | PInf => PInf
  | NInf => NaN
  | NaN => NaN
  end.

(** [b ** e] on a float64 base, for the positive exponents the code uses
    ([252 / len(df)]).  An integer exponent is a repeated product; a
    negative base with any other exponent is NaN. *)
Definition np_power (b : fval) (e : Q) : fval :=
  match b with
  | NaN => NaN
  | PInf => PInf
  | NInf => if is_integer e && Z.odd (to_integer e) then NInf else PInf
  | Num q =>
      if is_integer e then Num (Qred (Qpower q (to_integer e)))
      else if Qle_bool 0 q then Num (qpow q e)
      else NaN
  end.
End Irrational.

(** [np.where(a > b, 1, -1)] elementwise. *)
Definition where_gt (a b : list fval) : list fval :=
  map (fun ab => if fgtb (fst ab) (snd ab) then Num 1 else Num (-1))
      (combine a b).

End Numpy.
Import Numpy.

(* ------------------------------------------------------------------------- *)
(** ** pandas: series and frames *)

Module Pandas.

Definition series := list fval.

Definition notna (s : series) : series :=
  filter (fun x => negb (isnan x)) s.

Definition fsum (s : series) : fval := fold_left fadd s zero.

(** [Series.mean()]: the mean of the values that are not NaN, NaN when there
    is none. *)
Definition series_mean (s : series) : fval :=
  match notna s with
  | [] => NaN
  | vs => fdiv (fsum vs) (of_nat (List.length vs))
  end.

(** [Series.fillna(v)] *)
Definition series_fillna (s : series) (v : fval) : series :=
  map (fun x => if isnan x then v else x) s.

(** [Series.shift(1)] *)
Definition shift1 (s : series) : series :=
  match s with
  | [] => []
  | _ => NaN :: removelast s
  end.

(** [Series.ffill()] *)
Fixpoint ffill_from (last : fval) (s : series) : series :=
  match s with
  | [] => []
  | x :: s' =>
      if isnan x then last :: ffill_from last s' else x :: ffill_from x s'
  end.

Definition ffill (s : series) : series := ffill_from NaN s.

Definition series_div (a b : series) : series :=
  map (fun ab => fdiv (fst ab) (snd ab)) (combine a b).

Definition series_mul (a b : series) : series :=
  map (fun ab => fmul (fst ab) (snd ab)) (combine a b).

Definition series_add_scalar (a : series) (c : fval) : series :=
  map (fun x => fadd x c) a.

Definition series_sub_scalar (a : series) (c : fval) : series :=
  map (fun x => fsub x c) a.

(** [Series.pct_change()] with its default [fill_method='pad']:
    [data = self.ffill(); data / data.shift(1) - 1]. *)
Definition pct_change (s : series) : series :=
  let data := ffill s in
  series_sub_scalar (series_div data (shift1 data)) one.

(** [Series.cumprod()] with its default [skipna=True]: a NaN entry stays NaN
    in the result and counts as 1 in the running product. *)
Fixpoint cumprod_from (acc : fval) (s : series) : series :=
  match s with
  | [] => []
  | x :: s' =>
      if isnan x then NaN :: cumprod_from acc s'
      else let acc' := fmul acc x in acc' :: cumprod_from acc' s'
  end.

Definition cumprod (s : series) : series := cumprod_from one s.

(** [Series.iloc[-1]] *)
Definition iloc_last (s : series) : outcome fval :=
  match s with
  | [] => Raise IndexError
  | _ => Return (last s NaN)
  end.

(** The variance behind [Series.std()] (ddof = 1, NaN skipped): NaN unless
    at least two values are present. *)
Definition series_var (s : series) : fval :=
  let vs := notna s in
  let count := List.length vs in
  if (count <=? 1)%nat then NaN
  else
    let avg := fdiv (fsum vs) (of_nat count) in
    let sqr := map (fun v => let d := fsub avg v in fmul d d) vs in
    fdiv (fsum sqr) (of_nat (count - 1)).

Definition series_std (qsqrt : Q -> Q) (s : series) : fval :=
  np_sqrt qsqrt (series_var s).

(** *** Rolling mean

    [Series.rolling(window=w).mean()] with [min_periods = w].  Infinite
    entries are first turned into NaN; then one pass keeps the number and
    the sum of the observations inside the window, removing the entry that
    leaves it and adding the one that enters.  (The compensated summation
    and the sign clamps of the pandas loop only guard against rounding; on
    exact numbers they change nothing.) *)

Definition prep_values (s : series) : series :=
  map (fun x => if isinf x then NaN else x) s.

Record roll_state : Type := { nobs : nat; sum_x : Q }.

Definition add_mean (st : roll_state) (v : fval) : roll_state :=
  match v with
  | Num q => {| nobs := S (nobs st); sum_x := Qred (sum_x st + q) |}
  | _ => st
  end.

Definition remove_mean (st : roll_state) (v : fval) : roll_state :=
  match v with
  | Num q => {| nobs := pred (nobs st); sum_x := Qred (sum_x st - q) |}
  | _ => st
  end.

Definition calc_mean (minp : nat) (st : roll_state) : fval :=
  if ((minp <=? nobs st) && (0 <? nobs st))%nat
  then fdiv (Num (sum_x st)) (of_nat (nobs st))
  else NaN.

Fixpoint roll_mean_loop (w minp : nat) (values : series) (i : nat)
    (rest : series) (st : roll_state) : series :=
  match rest with
  | [] => []
  | v :: rest' =>
      let st1 :=
        if (w <=? i)%nat then remove_mean st (nth (i - w) values NaN) else st in
      let st2 := add_mean st1 v in
      calc_mean minp st2 :: roll_mean_loop w minp values (S i) rest' st2
  end.

Definition rolling_mean (w : nat) (s : series) : series :=
  let values := prep_values s in
  roll_mean_loop w w values 0 values {| nobs := 0; sum_x := 0 |}.

(** *** Frames

    A frame of the model holds float64 columns only.  On a frame with a
    text column [df.mean()] raises in pandas 2 and later, and
    [preprocess_data] returns [None]; such frames are outside the model. *)

Record DataFrame : Type := {
  nrows : nat;
  columns : dict series
}.

(** The invariant of a pandas frame: every column spans the index and column
    labels are distinct. *)
Definition wf (df : DataFrame) : Prop :=
  Forall (fun c => List.length (snd c) = nrows df) (columns df) /\
  NoDup (dict_keys (columns df)).

(** [df[key]] *)
Definition getitem (df : DataFrame) (key : string) : outcome series :=
  match dict_get (columns df) key with
  | Some s => Return s
  | None => Raise (KeyError key)
  end.

(** [df[key] = s], for a value computed from columns of [df] itself (it
    carries the frame's index, so pandas aligns it to itself): an existing
    column is replaced where it stands, a new one is appended. *)
Definition setitem (df : DataFrame) (key : string) (s : series) : DataFrame :=
  {| nrows := nrows df; columns := dict_set (columns df) key s |}.

(** [df.mean()]: column label to column mean. *)
Definition df_mean (df : DataFrame) : dict fval :=
  map (fun c => (fst c, series_mean (snd c))) (columns df).

(** [df.fillna(value)] for a per-column [value]; a new frame. *)
Definition df_fillna (df : DataFrame) (value : dict fval) : DataFrame :=
  {| nrows := nrows df;
     columns :=
       map (fun c =>
              (fst c,
               match dict_get value (fst c) with
               | Some v => series_fillna (snd c) v
               | None => snd c
               end))
           (columns df) |}.

(** [df.to_dict(orient='list')] *)
Definition to_dict_list (df : DataFrame) : dict series := columns df.

End Pandas.
Import Pandas.

(* ------------------------------------------------------------------------- *)
(** ** Statements that mutate an object and may raise *)

Module StateExn.

Section Monad.
Variable S : Type.

(** A block of statements run on a mutable object of state [S]: what it
    evaluates to (or raises) and the state it leaves.  A raise keeps the
    assignments made before it. *)
Definition M (A : Type) : Type := S -> outcome A * S.

Definition sret {A} (a : A) : M A := fun s => (Return a, s).

Definition sbind {A B} (m : M A) (k : A -> M B) : M B :=
  fun s =>
    match m s with
    | (Return a, s') => k a s'
    | (Raise e, s') => (Raise e, s')
    end.

Definition slift {A} (o : outcome A) : M A := fun s => (o, s).

Definition stry {A} (body : M A) (handler : exn -> M A) : M A :=
  fun s =>
    match body s with
    | (Return a, s') => (Return a, s')
    | (Raise e, s') => handler e s'
    end.
End Monad.

End StateExn.
Import StateExn.

Declare Scope st_scope.
Delimit Scope st_scope with st.
Notation "x <- m ;; k" := (sbind m (fun x => k))
  (at level 61, m at next level, right associativity) : st_scope.
Notation "m ;; k" := (sbind m (fun _ => k))
  (at level 61, right associativity) : st_scope.

(* ------------------------------------------------------------------------- *)
(** ** Python values of the result dictionaries *)

#[local] Unset Elimination Schemes.
Inductive pyval : Type :=
| PyFloat (v : fval)
| PyList (l : list fval)
| PyForeign (handle : nat)
| PyDict (d : list (string * pyval)).
#[local] Set Elimination Schemes.

(** The empty dict literal [{}]. *)
Definition empty_dict : pyval := PyDict [].

(* ------------------------------------------------------------------------- *)
(** ** The stage functions *)

Module Backtest.

Local Open Scope string_scope.

(** *** [load_data] *)

Record FileSystem : Type := {
  read_csv : string -> outcome DataFrame;
  read_parquet : string -> outcome DataFrame
}.

Definition load_data (fs : FileSystem) (file_path file_type : string)
  : outcome (option DataFrame) :=
  try_except
    (if String.eqb file_type "csv" then
       (df <- read_csv fs file_path ;; Return (Some df))%py
     else if String.eqb file_type "parquet" then
       (df <- read_parquet fs file_path ;; Return (Some df))%py
     else Return None)
    (fun _ => Return None).

(** *** [preprocess_data] *)

Definition preprocess_data (df : option DataFrame) : outcome (option DataFrame) :=
  match df with
  | None => Return None
  | Some df =>
      try_except
        (let df_filled := df_fillna df (df_mean df) in
         (close <- getitem df_filled "Close" ;;
          Return (Some (setitem df_filled "MA_5" (rolling_mean 5 close))))%py)
        (fun _ => Return None)
  end.

(** *** [run_r_analysis] *)

(** What an R list holds under a name: a nested [ListVector] or another R
    object. *)
Inductive rvalue : Type :=
| RListVector (items : list (string * nat))
| RObject (handle : nat).

(** The rpy2 calls the adapter makes, each with what it returns or raises. *)
Record REngine : Type := {
  r_source : string -> outcome unit;
  r_globalenv : string -> outcome nat;
  r_activate : outcome unit;
  r_py2rpy : DataFrame -> outcome nat;
  r_call : nat -> nat -> outcome nat;
  r_items : nat -> outcome (list (string * rvalue))
}.

Definition r_convert (value : rvalue) : pyval :=
  match value with
  | RListVector items =>
      PyDict (dict_of (map (fun kv => (fst kv, PyForeign (snd kv))) items))
  | RObject h => PyForeign h
  end.

Definition run_r_analysis (r : REngine) (df : option DataFrame)
    (r_script_path : string) : outcome (option (dict pyval)) :=
  match df with
  | None => Return None
  | Some df =>
      try_except
        (_ <- r_source r r_script_path ;;
         r_function <- r_globalenv r "perform_analysis" ;;
         _ <- r_activate r ;;
         r_df <- r_py2rpy r df ;;
         r_result <- r_call r r_function r_df ;;
         items <- r_items r r_result ;;
         Return
           (Some
              (fold_left
                 (fun result_dict nv =>
                    dict_set result_dict (fst nv) (r_convert (snd nv)))
                 items [])))%py
        (fun _ => Return None)
  end.

(** *** [run_matlab_simulation] *)

(** The MATLAB engine calls, each with what it returns or raises. *)
Record MatlabEngine : Type := {
  eng_start : outcome unit;
  eng_struct : dict series -> outcome nat;
  eng_eval : string -> outcome (option pyval);
  eng_quit : outcome unit
}.

(** The state the adapter acts on: the number of live engine sessions. *)
Definition sessions := nat.

Definition start_matlab (eng : MatlabEngine) : M sessions unit :=
  fun live =>
    match eng_start eng with
    | Return _ => (Return tt, S live)
    | Raise e => (Raise e, live)
    end.

Definition quit (eng : MatlabEngine) : M sessions unit :=
  fun live =>
    match eng_quit eng with
    | Return _ => (Return tt, pred live)
    | Raise e => (Raise e, live)
    end.

(** [max(...)] over a generator: [ValueError] when it is empty. *)
Definition py_max (l : list nat) : outcome nat :=
  match l with
  | [] => Raise ValueError
  | x :: l' => Return (fold_left Nat.max l' x)
  end.

Definition pad_columns (data_dict : dict series) (max_len : nat) : dict series :=
  map (fun kv =>
         (fst kv,
          if (List.length (snd kv) <? max_len)%nat
          then (snd kv ++ repeat NaN (max_len - List.length (snd kv)))%list
          else snd kv))
      data_dict.

Definition run_matlab_simulation (eng : MatlabEngine) (df : option DataFrame)
    (matlab_script_path : string) : M sessions (option pyval) :=
  match df with
  | None => sret None
  | Some df =>
      stry
        (start_matlab eng ;;
         let data_dict := to_dict_list df in
         max_len <- slift (py_max (map (fun kv => List.length (snd kv)) data_dict)) ;;
         let data_dict := pad_columns data_dict max_len in
         converted <-
           stry (matlab_data <- slift (eng_struct eng data_dict) ;;
                 sret (Some matlab_data))
                (fun _ => quit eng ;; sret None) ;;
         match converted with
         | None => sret None
         | Some _ =>
             result <-
               slift (eng_eval eng ("run('" ++ matlab_script_path ++ "')")) ;;
             quit eng ;;
             sret result
         end)%st
        (fun _ => sret None)
  end.

(** *** [run_backtest] *)

Section RunBacktest.
Variable qsqrt : Q -> Q.
Variable qpow : Q -> Q -> Q.

Definition get_col (key : string) : M DataFrame series :=
  fun df => (getitem df key, df).

Definition set_col (key : string) (s : series) : M DataFrame unit :=
  fun df => (Return tt, setitem df key s).

Definition len_df : M DataFrame nat :=
  fun df => (Return (nrows df), df).

Definition cumulative_of (strategy_returns : series) : series :=
  series_sub_scalar (cumprod (series_add_scalar strategy_returns one)) one.

Definition sharpe_of (average_annual_return annualized_volatility : fval)
  : fval :=
  if fgtb annualized_volatility zero
  then fdiv average_annual_return annualized_volatility
  else zero.

Definition run_backtest_try : M DataFrame (dict pyval) :=
  (ma_5 <- get_col "MA_5" ;;
   close <- get_col "Close" ;;
   set_col "Position" (where_gt ma_5 close) ;;
   position <- get_col "Position" ;;
   set_col "Lagged_Position" (shift1 position) ;;
   close <- get_col "Close" ;;
   set_col "Returns" (pct_change close) ;;
   lagged_position <- get_col "Lagged_Position" ;;
   returns <- get_col "Returns" ;;
   set_col "Strategy_Returns" (series_mul lagged_position returns) ;;
   strategy_returns <- get_col "Strategy_Returns" ;;
   let cumulative_returns := cumulative_of strategy_returns in
   total_return <- slift (iloc_last cumulative_returns) ;;
   n <- len_df ;;
   exponent <- slift (int_truediv 252 n) ;;
   let average_annual_return :=
     fsub (np_power qpow (fadd total_return one) exponent) one in
   strategy_returns <- get_col "Strategy_Returns" ;;
   let annualized_volatility :=
     fmul (series_std qsqrt strategy_returns) (np_sqrt qsqrt (Num 252)) in
   let sharpe_ratio := sharpe_of average_annual_return annualized_volatility in
   sret
     (dict_of
        [("cumulative_returns", PyList cumulative_returns);
         ("total_return", PyFloat total_return);
         ("average_annual_return", PyFloat average_annual_return);
         ("annualized_volatility", PyFloat annualized_volatility);
         ("sharpe_ratio", PyFloat sharpe_ratio)]))%st.

(** The frame passed in is the caller's object: the second component is
    the state it is left in. *)
Definition run_backtest (df : DataFrame) : outcome (option (dict pyval)) * DataFrame :=
  stry (results <- run_backtest_try ;; sret (Some results))%st
       (fun _ => sret None)
       df.

(** [run_backtest(None)] *)
Definition run_backtest_opt (df : option DataFrame)
  : outcome (option (dict pyval)) :=
  match df with
  | None => Return None
  | Some df => fst (run_backtest df)
  end.

(** *** [main]

    [main] prints and returns nothing; the model returns the
    [combined_results] dict it builds ([None] when it exits before), on the
    MATLAB session count as state. *)
Definition main (fs : FileSystem) (r : REngine) (eng : MatlabEngine)
    (data_file r_script matlab_script file_type : string)
  : M sessions (option (dict pyval)) :=
  (df <- slift (load_data fs data_file file_type) ;;
   match df with
   | None => sret None
   | Some df =>
       df_processed <- slift (preprocess_data (Some df)) ;;
       match df_processed with
       | None => sret None
       | Some df_processed =>
           r_results <- slift (run_r_analysis r (Some df_processed) r_script) ;;
           let r_results :=
             match r_results with
             | None => empty_dict
             | Some d => PyDict d
             end in
           matlab_results <-
             run_matlab_simulation eng (Some df_processed) matlab_script ;;
           let matlab_results :=
             match matlab_results with
             | None => empty_dict
             | Some v => v
             end in
           backtest_results <- slift (fst (run_backtest df_processed)) ;;
           match backtest_results with
           | None => sret None
           | Some backtest_results =>
               sret
                 (Some
                    (dict_of
                       [("r_results", r_results);
                        ("matlab_results", matlab_results);
                        ("backtest_results", PyDict backtest_results)]))
           end
       end
   end)%st.
End RunBacktest.

End Backtest.
Import Backtest.

(* ------------------------------------------------------------------------- *)
(** ** Vocabulary of the specification *)

Module Spec.

Local Open Scope string_scope.

(** The trailing window of [w] rows that ends at row [i]. *)
Definition window (w i : nat) (s : series) : series :=
  firstn w (skipn (i + 1 - w) s).

(** The arithmetic mean of the cells of a window: a number when every cell
    is a finite number, the missing marker otherwise. *)
Definition window_mean (l : series) : fval :=
  if forallb isfinite l then fdiv (fsum l) (of_nat (List.length l)) else NaN.

(** The last [w] entries of a series (all of it when it is shorter). *)
Definition tail_window (w : nat) (l : series) : series :=
  skipn (List.length l - w) l.

(** Number and sum of the finite entries of a series. *)
Fixpoint fin_count (l : series) : nat :=
  match l with
  | [] => O
  | Num _ :: l' => S (fin_count l')
  | _ :: l' => fin_count l'
  end.

Fixpoint fin_sum (l : series) : Q :=
  match l with
  | [] => 0
  | Num q :: l' => q + fin_sum l'
  | _ :: l' => fin_sum l'
  end.

(** What a rolling mean of window [w] shows for the window content [l]. *)
Definition roll_spec (w : nat) (l : series) : fval :=
  if ((w <=? fin_count l) && (0 <? fin_count l))%nat
  then Num (Qred (fin_sum l / inject_Z (Z.of_nat (fin_count l))))
  else NaN.

(** The running state of [roll_mean_loop] describes the last [w] entries
    read so far. *)
Definition roll_inv (w : nat) (seen : series) (st : roll_state) : Prop :=
  nobs st = fin_count (tail_window w seen) /\
  sum_x st == fin_sum (tail_window w seen).

Inductive PositionSignal : Type := Long | Short.

(** How the [Position] column encodes a signal: [1] is Long, [-1] is Short,
    NaN is the missing marker. *)
Definition signal_of (v : fval) : option PositionSignal :=
  match v with
  | Num q => if Qeq_bool q 1 then Some Long
             else if Qeq_bool q (-1) then Some Short else None
  | _ => None
  end.

(** [x] is within [eps] of the decimal [d]. *)
Definition approx (x : fval) (d eps : Q) : Prop :=
  match x with
  | Num q => d - eps < q /\ q < d + eps
  | _ => False
  end.

(** The keys of the dict [run_backtest] returns. *)
Definition metric_keys : list string :=
  ["cumulative_returns"; "total_return"; "average_annual_return";
   "annualized_volatility"; "sharpe_ratio"].

Definition float_at (d : dict pyval) (k : string) : option fval :=
  match dict_get d k with
  | Some (PyFloat v) => Some v
  | _ => None
  end.

(** The columns [run_backtest] assigns. *)
Definition assigned_columns : list string :=
  ["Position"; "Lagged_Position"; "Returns"; "Strategy_Returns"].

(** The frame [run_backtest] leaves when both columns it reads are there. *)
Definition frame_after (df : DataFrame) (ma_5 close : series) : DataFrame :=
  let position := where_gt ma_5 close in
  let lagged := shift1 position in
  let returns := pct_change close in
  setitem
    (setitem (setitem (setitem df "Position" position) "Lagged_Position" lagged)
             "Returns" returns)
    "Strategy_Returns" (series_mul lagged returns).

Definition strategy_returns_of (ma_5 close : series) : series :=
  series_mul (shift1 (where_gt ma_5 close)) (pct_change close).

Section Metrics.
Variable qsqrt : Q -> Q.
Variable qpow : Q -> Q -> Q.

Definition annual_return_of (total_return : fval) (exponent : Q) : fval :=
  fsub (np_power qpow (fadd total_return one) exponent) one.

Definition volatility_of (strategy_returns : series) : fval :=
  fmul (series_std qsqrt strategy_returns) (np_sqrt qsqrt (Num 252)).

(** The dict built at the end of [run_backtest]. *)
Definition metrics_of (n : nat) (strategy_returns : series)
  : outcome (dict pyval) :=
  (total_return <- iloc_last (cumulative_of strategy_returns) ;;
   exponent <- int_truediv 252 n ;;
   let r := annual_return_of total_return exponent in
   let v := volatility_of strategy_returns in
   Return
     [("cumulative_returns", PyList (cumulative_of strategy_returns));
      ("total_return", PyFloat total_return);
      ("average_annual_return", PyFloat r);
      ("annualized_volatility", PyFloat v);
      ("sharpe_ratio", PyFloat (sharpe_of r v))])%py.
End Metrics.

End Spec.
Import Spec.

(* ------------------------------------------------------------------------- *)
(** ** Reference instances and sample inputs *)

Module Samples.

Local Open Scope string_scope.

(** Heron's iteration from the integer square root, a rational stand-in
    for the square root. *)
Fixpoint heron (n : nat) (q x : Q) : Q :=
  match n with
  | O => x
  | S n' => heron n' q (Qred ((x + q / x) / 2))
  end.

Definition qsqrt_heron (q : Q) : Q :=
  if Qeq_bool q 0 then 0
  else heron 3 q (inject_Z (Z.sqrt (Qceiling q) + 1)).

(** A stand-in for [q ** e] when [e] is not an integer: the integer power
    below it, interpolated linearly. *)
Definition qpow_interp (q e : Q) : Q :=
  let z := Qfloor e in
  Qred (Qpower q z * (1 + (e - inject_Z z) * (q - 1))).

Definition frame_of_close (close : series) : DataFrame :=
  {| nrows := List.length close; columns := [("Close", close)] |}.

(** The end-to-end scenario of the specification. *)
Definition scenario_close : series :=
  [Num 100; Num 102; Num 101; Num 105; Num 107; Num 106; Num 110].

Definition scenario_raw : DataFrame := frame_of_close scenario_close.

Definition scenario_processed : DataFrame :=
  {| nrows := 7;
     columns := [("Close", scenario_close);
                 ("MA_5", [NaN; NaN; NaN; NaN;
                           Num 103; Num (521 # 5); Num (529 # 5)])] |}.

(** One row: the moving average is undefined on it. *)
Definition single_row : DataFrame :=
  {| nrows := 1; columns := [("Close", [Num 100]); ("MA_5", [NaN])] |}.

(** The price triples on the first day and then stays. *)
Definition tripling : DataFrame :=
  {| nrows := 5;
     columns := [("Close", [Num 1; Num 3; Num 3; Num 3; Num 3]);
                 ("MA_5", [NaN; NaN; NaN; NaN; Num (13 # 5)])] |}.

Definition fs_scenario : FileSystem :=
  {| read_csv := fun _ => Return scenario_raw;
     read_parquet := fun _ => Raise FileNotFoundError |}.

(** An R installation whose script cannot be sourced. *)
Definition r_script_missing : REngine :=
  {| r_source := fun _ => Raise (EngineError 1);
     r_globalenv := fun _ => Return 0%nat;
     r_activate := Return tt;
     r_py2rpy := fun _ => Return 0%nat;
     r_call := fun _ _ => Return 0%nat;
     r_items := fun _ => Return [] |}.

Definition r_working : REngine :=
  {| r_source := fun _ => Return tt;
     r_globalenv := fun _ => Return 1%nat;
     r_activate := Return tt;
     r_py2rpy := fun _ => Return 2%nat;
     r_call := fun _ _ => Return 3%nat;
     r_items := fun _ =>
       Return [("summary", RListVector [("mean", 4%nat); ("sd", 5%nat)]);
               ("n", RObject 6)] |}.

(** No MATLAB installation: the engine does not start. *)
Definition matlab_absent : MatlabEngine :=
  {| eng_start := Raise (EngineError 2);
     eng_struct := fun _ => Raise (EngineError 2);
     eng_eval := fun _ => Raise (EngineError 2);
     eng_quit := Raise (EngineError 2) |}.

Definition matlab_working : MatlabEngine :=
  {| eng_start := Return tt;
     eng_struct := fun _ => Return 7%nat;
     eng_eval := fun _ => Return (Some (PyForeign 8));
     eng_quit := Return tt |}.

(** MATLAB starts and takes the data, but the script fails. *)
Definition matlab_script_fails : MatlabEngine :=
  {| eng_start := Return tt;
     eng_struct := fun _ => Return 7%nat;
     eng_eval := fun _ => Raise (EngineError 3);
     eng_quit := Return tt |}.

(** MATLAB starts but rejects the data. *)
Definition matlab_struct_fails : MatlabEngine :=
  {| eng_start := Return tt;
     eng_struct := fun _ => Raise (EngineError 4);
     eng_eval := fun _ => Return (Some (PyForeign 8));
     eng_quit := Return tt |}.

(** No file at the given path. *)
Definition fs_missing : FileSystem :=
  {| read_csv := fun _ => Raise FileNotFoundError;
     read_parquet := fun _ => Raise FileNotFoundError |}.

(** Columns of unequal length, as a hand-built [data_dict] could have. *)
Definition ragged_dict : dict series :=
  [("a", [Num 1; Num 2; Num 3]); ("b", [Num 4]); ("c", [])].

(** A flat price of 50 over four rows, with an arbitrary feature column. *)
Definition flat_frame : DataFrame :=
  {| nrows := 4;
     columns := [("Close", [Num 50; Num 50; Num 50; Num 50]);
                 ("MA_5", [NaN; Num 60; Num 40; NaN])] |}.

End Samples.
Import Samples.

(* ------------------------------------------------------------------------- *)
(** ** Dictionaries *)

Section DictFacts.
Variable V : Type.
Implicit Types (d : dict V) (k : string) (v : V).

Lemma dict_get_set d k v k' :
  dict_get (dict_set d k v) k' =
  if String.eqb k k' then Some v else dict_get d k'.
Proof.
  induction d as [|[k0 v0] d IH]; simpl.
  - reflexivity.
  - destruct (String.eqb k0 k) eqn:E0; simpl.
    + apply String.eqb_eq in E0; subst k0.
      destruct (String.eqb k k'); reflexivity.
    + rewrite IH.
      destruct (String.eqb k0 k') eqn:E1; [|reflexivity].
      destruct (String.eqb k k') eqn:E2; [|reflexivity].
      apply String.eqb_eq in E1, E2; subst.
      now rewrite String.eqb_refl in E0.
Qed.

Lemma dict_set_same d k v :
  dict_get d k = Some v -> dict_set d k v = d.
Proof.
  induction d as [|[k0 v0] d IH]; simpl; [discriminate|].
  destruct (String.eqb k0 k) eqn:E0.
  - now intros [= ->].
  - intros H. now rewrite IH.
Qed.

Lemma dict_get_In d k v : dict_get d k = Some v -> In (k, v) d.
Proof.
  induction d as [|[k0 v0] d IH]; simpl; [discriminate|].
  destruct (String.eqb k0 k) eqn:E0.
  - apply String.eqb_eq in E0; subst. intros [= ->]. now left.
  - intros H. right. now apply IH.
Qed.
End DictFacts.

(* ------------------------------------------------------------------------- *)
(** ** [run_backtest], statement by statement *)

Section BacktestFacts.
Variable qsqrt : Q -> Q.
Variable qpow : Q -> Q -> Q.

Local Open Scope string_scope.

Lemma run_backtest_no_ma df :
  dict_get (columns df) "MA_5" = None ->
  run_backtest qsqrt qpow df = (Return None, df).
Proof.
  intros H. unfold run_backtest, run_backtest_try, stry, sbind, get_col, getitem.
  now rewrite H.
Qed.

Lemma run_backtest_no_close df ma :
  dict_get (columns df) "MA_5" = Some ma ->
  dict_get (columns df) "Close" = None ->
  run_backtest qsqrt qpow df = (Return None, df).
Proof.
  intros Hm Hc.
  unfold run_backtest, run_backtest_try, stry, sbind, get_col, getitem.
  now rewrite Hm, Hc.
Qed.

Lemma run_backtest_eq df ma close :
  dict_get (columns df) "MA_5" = Some ma ->
  dict_get (columns df) "Close" = Some close ->
  run_backtest qsqrt qpow df =
  (try_except
     (m <- metrics_of qsqrt qpow (nrows df) (strategy_returns_of ma close) ;;
      Return (Some m))%py
     (fun _ => Return None),
   frame_after df ma close).
Proof.
  intros Hm Hc.
  unfold run_backtest, run_backtest_try, stry, sbind, get_col, set_col,
    len_df, slift, sret, getitem, metrics_of, frame_after,
    strategy_returns_of, annual_return_of, volatility_of.
  rewrite Hm, Hc. cbn [setitem columns nrows].
  repeat (first [rewrite dict_get_set | rewrite Hc];
          cbn [String.eqb Ascii.eqb Bool.eqb]).
  destruct (iloc_last _) as [t|e]; cbn [bind try_except]; [|reflexivity].
  destruct (int_truediv 252 (nrows df)) as [x|e]; reflexivity.
Qed.
End BacktestFacts.

(* ------------------------------------------------------------------------- *)
(** ** Failure is a return value *)

Lemma try_except_total A (body : outcome (option A)) :
  raises (try_except body (fun _ => Return None)) = false.
Proof. now destruct body. Qed.

Lemma stry_total S A (body : M S (option A)) (s : S) :
  raises (fst (stry body (fun _ => sret None) s)) = false.
Proof. unfold stry, sret. now destruct (body s) as [[a|e] s']. Qed.

(** A handled exception becomes [None]. *)
Lemma try_except_raise A (body : outcome (option A)) e :
  body = Raise e -> try_except body (fun _ => Return None) = Return None.
Proof. now intros ->. Qed.

Lemma preprocess_data_total df : raises (preprocess_data df) = false.
Proof. destruct df; [apply try_except_total | reflexivity]. Qed.

Lemma run_r_analysis_total r df path : raises (run_r_analysis r df path) = false.
Proof. destruct df; [apply try_except_total | reflexivity]. Qed.

Lemma run_matlab_simulation_total eng df path live :
  raises (fst (run_matlab_simulation eng df path live)) = false.
Proof. destruct df; [apply stry_total | reflexivity]. Qed.

Lemma run_backtest_total qsqrt qpow df :
  raises (fst (run_backtest qsqrt qpow df)) = false.
Proof. apply stry_total. Qed.

(** C10.  None of the four stage functions lets an exception out: for every
    frame (present or absent), every behaviour of the R and MATLAB engines
    and every session count, the call evaluates to a value; and with the
    frame absent that value is [None], reached before any engine call (the
    session count is untouched). *)
Theorem stage_functions_never_raise
    (r : REngine) (eng : MatlabEngine) (qsqrt : Q -> Q) (qpow : Q -> Q -> Q)
    (df : option DataFrame) (path : string) (live : sessions) :
  (raises (preprocess_data df) = false /\
   preprocess_data None = Return None) /\
  (raises (run_r_analysis r df path) = false /\
   run_r_analysis r None path = Return None) /\
  (raises (fst (run_matlab_simulation eng df path live)) = false /\
   run_matlab_simulation eng None path live = (Return None, live)) /\
  (raises (run_backtest_opt qsqrt qpow df) = false /\
   run_backtest_opt qsqrt qpow None = Return None).
Proof.
  repeat split.
  - apply preprocess_data_total.
  - apply run_r_analysis_total.
  - apply run_matlab_simulation_total.
  - destruct df as [d|]; [apply run_backtest_total | reflexivity].
Qed.

(** What the handlers turn an exception into, engine call by engine call. *)
Lemma run_r_analysis_source_fails r df path e :
  r_source r path = Raise e -> run_r_analysis r (Some df) path = Return None.
Proof. intros H. unfold run_r_analysis. now rewrite H. Qed.

(* ------------------------------------------------------------------------- *)
(** ** The MATLAB session *)

(** The two paths that call [eng.quit()] give the session back. *)
Lemma matlab_success_releases df path live :
  run_matlab_simulation matlab_working (Some df) path live =
  (match columns df with
   | [] => Return None
   | _ => Return (Some (PyForeign 8))
   end,
   match columns df with [] => S live | _ => live end).
Proof.
  unfold run_matlab_simulation, stry, sbind, start_matlab, quit, slift, sret,
    to_dict_list.
  destruct (columns df) as [|c cs]; reflexivity.
Qed.

Lemma matlab_conversion_failure_releases :
  run_matlab_simulation matlab_struct_fails (Some scenario_processed)
    "simulation.m" 0%nat = (Return None, 0%nat).
Proof. reflexivity. Qed.

(** C9 (what the code does).  When the engine starts and takes the data but
    [eng.eval] raises, the call returns [None] and the session it started is
    still live: the outer handler does not call [eng.quit()]. *)
Theorem matlab_session_leaks_when_script_raises
    (eng : MatlabEngine) (df : DataFrame) (path : string) (live : sessions)
    (h : nat) (e : exn) (c : string * series) (cs : list (string * series)) :
  columns df = c :: cs ->
  eng_start eng = Return tt ->
  (forall data_dict, eng_struct eng data_dict = Return h) ->
  eng_eval eng ("run('" ++ path ++ "')") = Raise e ->
  run_matlab_simulation eng (Some df) path live = (Return None, S live).
Proof.
  intros Hc Hs Ht He.
  unfold run_matlab_simulation, stry, sbind, start_matlab, slift, sret,
    to_dict_list.
  rewrite Hs, Hc. cbn [map py_max]. rewrite Ht, He. reflexivity.
Qed.

(** [matlab_session_leaks_when_script_raises] on the scenario frame: no
    session before the call, one after it. *)
Lemma matlab_session_leaks_witness :
  run_matlab_simulation matlab_script_fails (Some scenario_processed)
    "simulation.m" 0%nat = (Return None, 1%nat).
Proof.
  apply (@matlab_session_leaks_when_script_raises matlab_script_fails
           scenario_processed "simulation.m" 0%nat 7%nat (EngineError 3)
           ("Close"%string, scenario_close)
           [("MA_5"%string,
             [NaN; NaN; NaN; NaN; Num 103; Num (521 # 5); Num (529 # 5)])]).
  - reflexivity.
  - reflexivity.
  - intros data_dict. reflexivity.
  - reflexivity.
Defined.

(** A frame without columns leaks the same way: [max()] raises after the
    engine has started. *)
Lemma matlab_leak_on_empty_frame eng n path live :
  eng_start eng = Return tt ->
  run_matlab_simulation eng (Some {| nrows := n; columns := [] |}) path live =
  (Return None, S live).
Proof.
  intros Hs.
  unfold run_matlab_simulation, stry, sbind, start_matlab, slift, sret.
  now rewrite Hs.
Qed.

(* ------------------------------------------------------------------------- *)
(** ** What [run_backtest] returns and what it leaves behind *)

Section BacktestResults.
Variable qsqrt : Q -> Q.
Variable qpow : Q -> Q -> Q.

Local Open Scope string_scope.

Lemma metrics_of_keys n sr m :
  metrics_of qsqrt qpow n sr = Return m -> dict_keys m = metric_keys.
Proof.
  unfold metrics_of.
  destruct (iloc_last _) as [t|e]; cbn [bind]; [|discriminate].
  destruct (int_truediv 252 n) as [x|e]; cbn [bind]; [|discriminate].
  now intros [= <-].
Qed.

Lemma run_backtest_keys df m :
  fst (run_backtest qsqrt qpow df) = Return (Some m) ->
  dict_keys m = metric_keys.
Proof.
  destruct (dict_get (columns df) "MA_5") as [ma|] eqn:Hm.
  2:{ now rewrite run_backtest_no_ma. }
  destruct (dict_get (columns df) "Close") as [close|] eqn:Hc.
  2:{ now rewrite (run_backtest_no_close _ _ _ Hm Hc). }
  rewrite (run_backtest_eq _ _ _ Hm Hc). cbn [fst].
  destruct (metrics_of _ _ _ _) as [m'|e] eqn:E; cbn [bind try_except].
  - intros [= <-]. exact (metrics_of_keys _ _ E).
  - discriminate.
Qed.

Lemma frame_after_get df ma close k :
  ~ In k assigned_columns ->
  dict_get (columns (frame_after df ma close)) k = dict_get (columns df) k.
Proof.
  intros Hk. unfold frame_after. cbn [setitem columns].
  rewrite !dict_get_set.
  repeat match goal with
         | |- context [String.eqb ?a k] =>
             let E := fresh "E" in
             destruct (String.eqb a k) eqn:E;
             [apply String.eqb_eq in E; subst k; exfalso; apply Hk;
              cbn; tauto|]
         end.
  reflexivity.
Qed.

Lemma frame_after_idem df ma close :
  frame_after (frame_after df ma close) ma close = frame_after df ma close.
Proof.
  unfold frame_after, setitem. cbn [columns nrows]. f_equal.
  repeat (rewrite dict_set_same;
          [|rewrite !dict_get_set; reflexivity]).
  reflexivity.
Qed.

Lemma frame_after_assigned df ma close k :
  In k assigned_columns ->
  dict_get (columns (frame_after df ma close)) k <> None.
Proof.
  intros Hk. unfold frame_after. cbn [setitem columns].
  rewrite !dict_get_set.
  cbn in Hk. decompose [or] Hk; subst; cbn; try discriminate; tauto.
Qed.
End BacktestResults.

(** C3 (as amended).  [run_backtest] writes to the frame it is given: it
    assigns the four columns [Position], [Lagged_Position], [Returns] and
    [Strategy_Returns] (all four are there whenever it returns metrics) and
    leaves the row count and every other column, [Close] and [MA_5] among
    them, as they were.  It is deterministic and repeatable: run again on the
    frame it left, it returns the same value and leaves that frame as it
    is. *)
Theorem run_backtest_frame_effect (qsqrt : Q -> Q) (qpow : Q -> Q -> Q)
    (df : DataFrame) :
  let df' := snd (run_backtest qsqrt qpow df) in
  nrows df' = nrows df /\
  (forall k, ~ In k assigned_columns ->
             dict_get (columns df') k = dict_get (columns df) k) /\
  (forall m, fst (run_backtest qsqrt qpow df) = Return (Some m) ->
             forall k, In k assigned_columns ->
                       dict_get (columns df') k <> None) /\
  run_backtest qsqrt qpow df' = (fst (run_backtest qsqrt qpow df), df').
Proof.
  cbv zeta.
  destruct (dict_get (columns df) "MA_5") as [ma|] eqn:Hm.
  2:{ rewrite (run_backtest_no_ma qsqrt qpow df Hm). cbn [fst snd].
      rewrite (run_backtest_no_ma qsqrt qpow df Hm).
      repeat split; auto; discriminate. }
  destruct (dict_get (columns df) "Close") as [close|] eqn:Hc.
  2:{ rewrite (run_backtest_no_close qsqrt qpow df Hm Hc). cbn [fst snd].
      rewrite (run_backtest_no_close qsqrt qpow df Hm Hc).
      repeat split; auto; discriminate. }
  rewrite (run_backtest_eq qsqrt qpow df Hm Hc). cbn [fst snd].
  repeat split.
  - intros k Hk. now apply frame_after_get.
  - intros m _ k Hk. now apply frame_after_assigned.
  - rewrite (run_backtest_eq qsqrt qpow (frame_after df ma close) (ma := ma)
               (close := close)).
    + now rewrite frame_after_idem.
    + rewrite frame_after_get; [exact Hm|]. cbn. intuition discriminate.
    + rewrite frame_after_get; [exact Hc|]. cbn. intuition discriminate.
Qed.

(** C3, as stated, fails on the scenario frame: the frame has two columns
    before the call and six after it. *)
Lemma run_backtest_mutates_frame :
  dict_keys (columns scenario_processed) = ["Close"; "MA_5"]%string /\
  dict_keys
    (columns (snd (run_backtest qsqrt_heron qpow_interp scenario_processed))) =
  ["Close"; "MA_5"; "Position"; "Lagged_Position"; "Returns";
   "Strategy_Returns"]%string /\
  snd (run_backtest qsqrt_heron qpow_interp scenario_processed) <>
  scenario_processed.
Proof.
  rewrite (run_backtest_eq qsqrt_heron qpow_interp scenario_processed
             (ma := [NaN; NaN; NaN; NaN; Num 103; Num (521 # 5); Num (529 # 5)])
             (close := scenario_close) eq_refl eq_refl).
  cbn [snd]. repeat split.
  intros H. apply (f_equal (fun d => List.length (columns d))) in H.
  discriminate H.
Qed.

(* ------------------------------------------------------------------------- *)
(** ** Lengths of the derived series *)

Lemma length_removelast (s : series) :
  List.length (removelast s) = pred (List.length s).
Proof.
  induction s as [|x s IH]; [reflexivity|].
  destruct s as [|y s]; [reflexivity|].
  change (removelast (x :: y :: s)) with (x :: removelast (y :: s)).
  cbn [List.length]. rewrite IH. reflexivity.
Qed.

Lemma length_shift1 (s : series) : List.length (shift1 s) = List.length s.
Proof.
  destruct s as [|x s]; [reflexivity|].
  unfold shift1. cbn [List.length]. now rewrite length_removelast.
Qed.

Lemma length_ffill_from last (s : series) :
  List.length (ffill_from last s) = List.length s.
Proof.
  revert last. induction s as [|x s IH]; intros last; [reflexivity|].
  cbn [ffill_from]. destruct (isnan x); cbn [List.length]; now rewrite IH.
Qed.

Lemma length_pct_change (s : series) :
  List.length (pct_change s) = List.length s.
Proof.
  unfold pct_change, series_sub_scalar, series_div, ffill.
  rewrite !length_map, length_combine, length_shift1, length_ffill_from.
  apply Nat.min_id.
Qed.

Lemma length_where_gt (a b : series) :
  List.length (where_gt a b) = Nat.min (List.length a) (List.length b).
Proof. unfold where_gt. now rewrite length_map, length_combine. Qed.

Lemma length_cumprod_from acc (s : series) :
  List.length (cumprod_from acc s) = List.length s.
Proof.
  revert acc. induction s as [|x s IH]; intros acc; [reflexivity|].
  cbn [cumprod_from]. destruct (isnan x); cbn [List.length]; now rewrite IH.
Qed.

Lemma length_cumulative_of (s : series) :
  List.length (cumulative_of s) = List.length s.
Proof.
  unfold cumulative_of, series_sub_scalar, series_add_scalar, cumprod.
  now rewrite length_map, length_cumprod_from, length_map.
Qed.

Lemma length_strategy_returns_of (ma close : series) :
  List.length (strategy_returns_of ma close) =
  Nat.min (List.length ma) (List.length close).
Proof.
  unfold strategy_returns_of, series_mul.
  rewrite length_map, length_combine, length_shift1, length_where_gt,
    length_pct_change.
  lia.
Qed.

Lemma iloc_last_raises_iff (s : series) :
  raises (iloc_last s) = true <-> s = [].
Proof. destruct s; cbn; split; congruence. Qed.

Lemma wf_column_length df k s :
  wf df -> dict_get (columns df) k = Some s -> List.length s = nrows df.
Proof.
  intros [Hlen _] Hk. apply dict_get_In in Hk.
  rewrite Forall_forall in Hlen. exact (Hlen _ Hk).
Qed.

(* ------------------------------------------------------------------------- *)
(** ** When [run_backtest] fails *)

Lemma scenario_processed_wf : wf scenario_processed.
Proof.
  split.
  - repeat constructor.
  - cbn. repeat constructor; cbn; intuition discriminate.
Qed.

Lemma single_row_is_processed :
  preprocess_data (Some (frame_of_close [Num 100])) = Return (Some single_row).
Proof. reflexivity. Qed.

(** With both columns and at least one row the call returns metrics. *)
Lemma run_backtest_returns (qsqrt : Q -> Q) (qpow : Q -> Q -> Q)
    (df : DataFrame) (ma close : series) :
  wf df ->
  dict_get (columns df) "MA_5" = Some ma ->
  dict_get (columns df) "Close" = Some close ->
  nrows df <> 0%nat ->
  exists m, fst (run_backtest qsqrt qpow df) = Return (Some m) /\
            dict_keys m = metric_keys.
Proof.
  intros Hwf Hm Hc Hn.
  rewrite (run_backtest_eq qsqrt qpow df Hm Hc). cbn [fst].
  pose proof (length_strategy_returns_of ma close) as Hlen.
  rewrite (wf_column_length _ Hwf Hm), (wf_column_length _ Hwf Hc),
    Nat.min_id in Hlen.
  pose proof (length_cumulative_of (strategy_returns_of ma close)) as Hcum.
  rewrite Hlen in Hcum. unfold metrics_of.
  destruct (cumulative_of (strategy_returns_of ma close)) as [|c cs] eqn:Ec;
    cbn [List.length] in Hcum; [congruence|].
  cbn [iloc_last bind].
  destruct (nrows df) as [|n]; [congruence|].
  cbn [int_truediv bind try_except]. eexists. split; reflexivity.
Qed.

(** The dict a successful call returned, read back from the call. *)
Lemma returned_metrics (o : outcome (option (dict pyval))) :
  (exists m, o = Return (Some m)) ->
  o = Return (Some (match o with Return (Some m) => m | _ => [] end)).
Proof. now intros [m ->]. Qed.

(** C4 (as amended).  On a well-formed frame [run_backtest] returns [None]
    exactly when [Close] or [MA_5] is absent or the frame has no row at all;
    in every other case, a single row included, it returns a dict with the
    five metric keys. *)
Theorem run_backtest_fails_iff (qsqrt : Q -> Q) (qpow : Q -> Q -> Q)
    (df : DataFrame) :
  wf df ->
  (fst (run_backtest qsqrt qpow df) = Return None <->
   dict_get (columns df) "Close" = None \/
   dict_get (columns df) "MA_5" = None \/
   nrows df = 0%nat) /\
  (fst (run_backtest qsqrt qpow df) <> Return None ->
   exists m, fst (run_backtest qsqrt qpow df) = Return (Some m) /\
             dict_keys m = metric_keys).
Proof.
  intros Hwf.
  destruct (dict_get (columns df) "MA_5") as [ma|] eqn:Hm.
  2:{ rewrite (run_backtest_no_ma qsqrt qpow df Hm). cbn [fst].
      split; [tauto | congruence]. }
  destruct (dict_get (columns df) "Close") as [close|] eqn:Hc.
  2:{ rewrite (run_backtest_no_close qsqrt qpow df Hm Hc). cbn [fst].
      split; [tauto | congruence]. }
  rewrite (run_backtest_eq qsqrt qpow df Hm Hc). cbn [fst].
  pose proof (length_strategy_returns_of ma close) as Hlen.
  rewrite (wf_column_length _ Hwf Hm), (wf_column_length _ Hwf Hc),
    Nat.min_id in Hlen.
  pose proof (length_cumulative_of (strategy_returns_of ma close)) as Hcum.
  rewrite Hlen in Hcum.
  unfold metrics_of.
  destruct (cumulative_of (strategy_returns_of ma close)) as [|c cs] eqn:Ec.
  - cbn [iloc_last bind try_except]. cbn [List.length] in Hcum.
    split; [|congruence].
    split; [intros _; right; right; now symmetry | reflexivity].
  - cbn [iloc_last bind]. cbn [List.length] in Hcum.
    destruct (nrows df) as [|n] eqn:En; [discriminate|].
    cbn [int_truediv bind try_except]. split.
    + split; [discriminate | intros [H|[H|H]]; discriminate].
    + intros _. eexists. split; reflexivity.
Qed.

(** [run_backtest_fails_iff] at the one-row frame. *)
Lemma run_backtest_fails_iff_witness :
  (fst (run_backtest qsqrt_heron qpow_interp single_row) = Return None <->
   dict_get (columns single_row) "Close" = None \/
   dict_get (columns single_row) "MA_5" = None \/
   nrows single_row = 0%nat) /\
  (fst (run_backtest qsqrt_heron qpow_interp single_row) <> Return None ->
   exists m, fst (run_backtest qsqrt_heron qpow_interp single_row) =
             Return (Some m) /\
             dict_keys m = metric_keys).
Proof.
  apply (run_backtest_fails_iff qsqrt_heron qpow_interp (df := single_row)).
  split.
  - repeat constructor.
  - cbn. repeat constructor; cbn; intuition discriminate.
Defined.

(** C4, as stated, fails on a frame with one row: both columns are there,
    the frame has fewer than two rows, and the call returns metrics (all
    NaN, with a Sharpe ratio of 0) instead of failing. *)
Lemma single_row_backtest_returns_metrics :
  (nrows single_row < 2)%nat /\
  fst (run_backtest qsqrt_heron qpow_interp single_row) =
  Return
    (Some
       [("cumulative_returns", PyList [NaN]);
        ("total_return", PyFloat NaN);
        ("average_annual_return", PyFloat NaN);
        ("annualized_volatility", PyFloat NaN);
        ("sharpe_ratio", PyFloat (Num 0))]%string).
Proof. split; [repeat constructor | reflexivity]. Qed.

(* ------------------------------------------------------------------------- *)
(** ** The combined report *)

Lemma main_builds_report (qsqrt : Q -> Q) (qpow : Q -> Q -> Q)
    (fs : FileSystem) (r : REngine) (eng : MatlabEngine)
    (data_file r_script matlab_script file_type : string) (live : sessions)
    (df df_processed : DataFrame) (metrics : dict pyval) :
  load_data fs data_file file_type = Return (Some df) ->
  preprocess_data (Some df) = Return (Some df_processed) ->
  fst (run_backtest qsqrt qpow df_processed) = Return (Some metrics) ->
  fst (main qsqrt qpow fs r eng data_file r_script matlab_script file_type
         live) =
  Return
    (Some
       [("r_results",
         match run_r_analysis r (Some df_processed) r_script with
         | Return (Some d) => PyDict d
         | _ => empty_dict
         end);
        ("matlab_results",
         match fst (run_matlab_simulation eng (Some df_processed)
                      matlab_script live) with
         | Return (Some v) => v
         | _ => empty_dict
         end);
        ("backtest_results", PyDict metrics)]%string).
Proof.
  intros Hload Hpre Hbt.
  pose proof (run_r_analysis_total r (Some df_processed) r_script) as Hr.
  pose proof (run_matlab_simulation_total eng (Some df_processed)
                matlab_script live) as Hm.
  unfold main, sbind, slift, sret. rewrite Hload, Hpre.
  destruct (run_r_analysis r (Some df_processed) r_script) as [rr|e];
    [|discriminate Hr].
  destruct (run_matlab_simulation eng (Some df_processed) matlab_script live)
    as [[mr|e] live']; [|discriminate Hm].
  rewrite Hbt. cbn [fst].
  destruct rr, mr; reflexivity.
Qed.

(** C8 (as amended).  Whenever loading, preprocessing and the backtest
    succeed, [main] builds a report with exactly the three keys [r_results],
    [matlab_results] and [backtest_results].  The first two hold what the
    adapter returned, or the empty dict when the adapter returned [None];
    the third holds the backtest dict with its five keys. *)
Theorem main_report_fields (qsqrt : Q -> Q) (qpow : Q -> Q -> Q)
    (fs : FileSystem) (r : REngine) (eng : MatlabEngine)
    (data_file r_script matlab_script file_type : string) (live : sessions)
    (df df_processed : DataFrame) (metrics : dict pyval) :
  load_data fs data_file file_type = Return (Some df) ->
  preprocess_data (Some df) = Return (Some df_processed) ->
  fst (run_backtest qsqrt qpow df_processed) = Return (Some metrics) ->
  exists report,
    fst (main qsqrt qpow fs r eng data_file r_script matlab_script file_type
           live) = Return (Some report) /\
    dict_keys report = ["r_results"; "matlab_results"; "backtest_results"]%string /\
    dict_get report "r_results" =
      Some (match run_r_analysis r (Some df_processed) r_script with
            | Return (Some d) => PyDict d
            | _ => empty_dict
            end) /\
    dict_get report "matlab_results" =
      Some (match fst (run_matlab_simulation eng (Some df_processed)
                         matlab_script live) with
            | Return (Some v) => v
            | _ => empty_dict
            end) /\
    dict_get report "backtest_results" = Some (PyDict metrics) /\
    dict_keys metrics = metric_keys.
Proof.
  intros Hload Hpre Hbt.
  eexists. split.
  - exact (main_builds_report qsqrt qpow fs r eng data_file r_script
             matlab_script file_type live Hload Hpre Hbt).
  - repeat split; try reflexivity.
    exact (run_backtest_keys _ _ _ Hbt).
Qed.

(** [main_report_fields] on the scenario file with both engines failing. *)
Lemma main_report_fields_witness :
  exists report,
    fst (main qsqrt_heron qpow_interp fs_scenario r_script_missing
           matlab_absent "data.csv" "analysis.R" "simulation.m" "csv" 0%nat) =
    Return (Some report) /\
    dict_keys report = ["r_results"; "matlab_results"; "backtest_results"]%string /\
    dict_get report "r_results" = Some empty_dict /\
    dict_get report "matlab_results" = Some empty_dict /\
    dict_get report "backtest_results" =
      Some (PyDict
              (match fst (run_backtest qsqrt_heron qpow_interp
                            scenario_processed) with
               | Return (Some m) => m
               | _ => []
               end)) /\
    dict_keys
      (match fst (run_backtest qsqrt_heron qpow_interp scenario_processed) with
       | Return (Some m) => m
       | _ => []
       end) = metric_keys.
Proof.
  apply (main_report_fields qsqrt_heron qpow_interp fs_scenario
           r_script_missing matlab_absent "data.csv" "analysis.R"
           "simulation.m" "csv" 0%nat
           (df := scenario_raw) (df_processed := scenario_processed)).
  - reflexivity.
  - reflexivity.
  - apply returned_metrics.
    destruct (run_backtest_returns qsqrt_heron qpow_interp
                scenario_processed_wf
                (ma := [NaN; NaN; NaN; NaN; Num 103; Num (521 # 5); Num (529 # 5)])
                (close := scenario_close) eq_refl eq_refl)
      as [m [Hm _]]; [discriminate|].
    now exists m.
Defined.

(** C8, as stated, fails on the key names: the report of a successful run
    has no key [statistical_results] and no key [simulation_results]. *)
Lemma report_has_no_statistical_results_key :
  exists report,
    fst (main qsqrt_heron qpow_interp fs_scenario r_working matlab_working
           "data.csv" "analysis.R" "simulation.m" "csv" 0%nat) =
    Return (Some report) /\
    dict_get report "statistical_results" = None /\
    dict_get report "simulation_results" = None /\
    dict_keys report = ["r_results"; "matlab_results"; "backtest_results"]%string.
Proof.
  destruct (run_backtest_returns qsqrt_heron qpow_interp scenario_processed_wf
              (ma := [NaN; NaN; NaN; NaN; Num 103; Num (521 # 5); Num (529 # 5)])
              (close := scenario_close) eq_refl eq_refl)
    as [m [Hm _]]; [discriminate|].
  eexists. split.
  - exact (main_builds_report qsqrt_heron qpow_interp fs_scenario r_working
             matlab_working "data.csv" "analysis.R" "simulation.m" "csv" 0%nat
             (df := scenario_raw) (df_processed := scenario_processed)
             eq_refl eq_refl Hm).
  - repeat split.
Qed.

(* ------------------------------------------------------------------------- *)
(** ** The position signal *)

Lemma nth_where_gt (a b : series) i :
  (i < List.length a)%nat -> (i < List.length b)%nat ->
  nth i (where_gt a b) NaN =
  if fgtb (nth i a NaN) (nth i b NaN) then Num 1 else Num (-1).
Proof.
  revert b i. induction a as [|x a IH]; intros [|y b] [|i] Ha Hb;
    cbn [List.length] in *; try lia; [reflexivity|].
  apply (IH b i); lia.
Qed.

(** C2 (what the code does).  After [run_backtest], row [i] of [Position] is
    Long when [MA_5[i] > Close[i]] and Short in every other case.  A row
    whose moving average is NaN is such a case: the comparison with NaN is
    false, so the row is Short, not missing. *)
Theorem position_rule (qsqrt : Q -> Q) (qpow : Q -> Q -> Q) (df : DataFrame)
    (ma close : series) (i : nat) :
  dict_get (columns df) "MA_5" = Some ma ->
  dict_get (columns df) "Close" = Some close ->
  (i < List.length ma)%nat ->
  (i < List.length close)%nat ->
  exists position,
    dict_get (columns (snd (run_backtest qsqrt qpow df))) "Position" =
      Some position /\
    signal_of (nth i position NaN) =
      Some (if fgtb (nth i ma NaN) (nth i close NaN) then Long else Short) /\
    (nth i ma NaN = NaN -> signal_of (nth i position NaN) = Some Short).
Proof.
  intros Hm Hc Hi Hi'.
  rewrite (run_backtest_eq qsqrt qpow df Hm Hc). cbn [snd].
  exists (where_gt ma close). split.
  - unfold frame_after. cbn [setitem columns]. now rewrite !dict_get_set.
  - rewrite (nth_where_gt _ _ Hi Hi'). split.
    + now destruct (fgtb _ _).
    + now intros ->.
Qed.

(** [position_rule] at row 0 of the scenario, where the moving average is
    NaN and the position comes out Short. *)
Lemma position_rule_witness :
  exists position,
    dict_get
      (columns (snd (run_backtest qsqrt_heron qpow_interp scenario_processed)))
      "Position" = Some position /\
    signal_of (nth 0 position NaN) = Some Short /\
    (NaN = NaN -> signal_of (nth 0 position NaN) = Some Short).
Proof.
  apply (position_rule qsqrt_heron qpow_interp scenario_processed
           (ma := [NaN; NaN; NaN; NaN; Num 103; Num (521 # 5); Num (529 # 5)])
           (close := scenario_close) (i := 0%nat)).
  - reflexivity.
  - reflexivity.
  - cbn. lia.
  - cbn. lia.
Defined.

(* ------------------------------------------------------------------------- *)
(** ** The end-to-end scenario *)

(** C1 (evaluated on the scenario).  On [Close = [100, 102, 101, 105, 107,
    106, 110]] the feature stage gives the moving average [103, 104.2,
    105.8] at rows 4 to 6 and NaN before; the backtest gives Short at rows 4
    to 6 and strategy returns of about +0.00935 and -0.03774 at rows 5 and
    6.  It also gives Short at rows 0 to 3, so rows 1 to 4 carry strategy
    returns too and the cumulative return after row 6 is
    -6764776/71596375, about -0.09448, not -0.02888. *)
Theorem scenario_trace :
  preprocess_data (Some scenario_raw) = Return (Some scenario_processed) /\
  getitem scenario_processed "MA_5" =
    Return [NaN; NaN; NaN; NaN; Num 103; Num (521 # 5); Num (529 # 5)] /\
  (521 # 5 == 104.2 /\ 529 # 5 == 105.8) /\
  getitem (snd (run_backtest qsqrt_heron qpow_interp scenario_processed))
    "Position" =
    Return [Num (-1); Num (-1); Num (-1); Num (-1);
            Num (-1); Num (-1); Num (-1)] /\
  getitem (snd (run_backtest qsqrt_heron qpow_interp scenario_processed))
    "Strategy_Returns" =
    Return [NaN; Num (-1 # 50); Num (1 # 102); Num (-4 # 101);
            Num (-2 # 105); Num (1 # 107); Num (-2 # 53)] /\
  approx (Num (1 # 107)) 0.00935 0.00001 /\
  approx (Num (-2 # 53)) (-0.03774) 0.00001 /\
  exists m cum,
    fst (run_backtest qsqrt_heron qpow_interp scenario_processed) =
      Return (Some m) /\
    dict_get m "cumulative_returns" = Some (PyList cum) /\
    nth 6 cum NaN = Num (-6764776 # 71596375) /\
    approx (nth 6 cum NaN) (-0.09448) 0.00001 /\
    ~ approx (nth 6 cum NaN) (-0.02888) 0.01.
Proof.
  split; [reflexivity|].
  split; [reflexivity|].
  split; [split; reflexivity|].
  split; [reflexivity|].
  split; [reflexivity|].
  split; [split; reflexivity|].
  split; [split; reflexivity|].
  rewrite (run_backtest_eq qsqrt_heron qpow_interp scenario_processed
             (ma := [NaN; NaN; NaN; NaN; Num 103; Num (521 # 5); Num (529 # 5)])
             (close := scenario_close) eq_refl eq_refl).
  cbn [fst]. unfold metrics_of.
  assert (E : cumulative_of
                (strategy_returns_of
                   [NaN; NaN; NaN; NaN; Num 103; Num (521 # 5); Num (529 # 5)]
                   scenario_close) =
              [NaN; Num (-1 # 50); Num (-53 # 5100); Num (-25541 # 515100);
               Num (-522989 # 7726500); Num (-1354342 # 22964875);
               Num (-6764776 # 71596375)]) by reflexivity.
  rewrite E. cbn [iloc_last bind nrows scenario_processed int_truediv try_except].
  eexists. eexists.
  split; [reflexivity|].
  split; [reflexivity|].
  split; [reflexivity|].
  split; [split; reflexivity|].
  intros [H _]. discriminate H.
Qed.

(** With NaN instead of Short at the rows where the moving average is NaN,
    only rows 5 and 6 carry a strategy return, and compounding them gives
    (108/107)(51/53) - 1, about -0.02874: the figure of the specification
    to three decimals. *)
Lemma scenario_cumulative_from_row_5 :
  approx
    (last (cumulative_of [NaN; NaN; NaN; NaN; NaN; Num (1 # 107); Num (-2 # 53)])
          NaN)
    (-0.02888) 0.001.
Proof. split; reflexivity. Qed.

(* ------------------------------------------------------------------------- *)
(** ** The Sharpe ratio *)

(** The guard of the Sharpe ratio looks at the volatility only. *)
Lemma sharpe_of_nan v :
  fgtb v zero = true -> sharpe_of NaN v = NaN.
Proof. intros H. unfold sharpe_of. now rewrite H. Qed.

(** C5 (as amended).  In the dict [run_backtest] returns, the Sharpe ratio
    is the annualized return divided by the annualized volatility when the
    volatility is greater than 0, and exactly 0 in every other case, a
    volatility of 0 or NaN included; so the division is never by zero.  The
    guard does not look at the return: when the annualized return is NaN
    and the volatility is greater than 0, the Sharpe ratio is NaN. *)
Theorem sharpe_ratio_rule (qsqrt : Q -> Q) (qpow : Q -> Q -> Q)
    (df : DataFrame) (m : dict pyval) :
  fst (run_backtest qsqrt qpow df) = Return (Some m) ->
  exists r v s,
    float_at m "average_annual_return" = Some r /\
    float_at m "annualized_volatility" = Some v /\
    float_at m "sharpe_ratio" = Some s /\
    s = (if fgtb v zero then fdiv r v else zero) /\
    (v = zero -> s = zero) /\
    (v = NaN -> s = zero) /\
    (s <> zero -> fgtb v zero = true) /\
    (r = NaN -> fgtb v zero = true -> s = NaN).
Proof.
  destruct (dict_get (columns df) "MA_5") as [ma|] eqn:Hm.
  2:{ now rewrite run_backtest_no_ma. }
  destruct (dict_get (columns df) "Close") as [close|] eqn:Hc.
  2:{ now rewrite (run_backtest_no_close _ _ _ Hm Hc). }
  rewrite (run_backtest_eq _ _ _ Hm Hc). cbn [fst]. unfold metrics_of.
  destruct (iloc_last _) as [t|e]; cbn [bind try_except]; [|discriminate].
  destruct (int_truediv 252 (nrows df)) as [x|e]; cbn [bind try_except];
    [|discriminate].
  intros [= <-].
  exists (annual_return_of qpow t x),
    (volatility_of qsqrt (strategy_returns_of ma close)),
    (sharpe_of (annual_return_of qpow t x)
               (volatility_of qsqrt (strategy_returns_of ma close))).
  repeat split.
  - intros ->. reflexivity.
  - intros ->. reflexivity.
  - unfold sharpe_of. destruct (fgtb _ _); congruence.
  - intros -> Hv. now apply sharpe_of_nan.
Qed.

(** [sharpe_ratio_rule] on the frame whose price triples, where the
    annualized return is NaN. *)
Lemma sharpe_ratio_rule_witness :
  exists r v s,
    float_at (match fst (run_backtest qsqrt_heron qpow_interp tripling) with
              | Return (Some m) => m
              | _ => []
              end) "average_annual_return" = Some r /\
    float_at (match fst (run_backtest qsqrt_heron qpow_interp tripling) with
              | Return (Some m) => m
              | _ => []
              end) "annualized_volatility" = Some v /\
    float_at (match fst (run_backtest qsqrt_heron qpow_interp tripling) with
              | Return (Some m) => m
              | _ => []
              end) "sharpe_ratio" = Some s /\
    s = (if fgtb v zero then fdiv r v else zero) /\
    (v = zero -> s = zero) /\
    (v = NaN -> s = zero) /\
    (s <> zero -> fgtb v zero = true) /\
    (r = NaN -> fgtb v zero = true -> s = NaN).
Proof.
  apply (sharpe_ratio_rule qsqrt_heron qpow_interp tripling).
  apply returned_metrics.
  assert (Hwf : wf tripling).
  { split.
    - repeat constructor.
    - cbn. repeat constructor; cbn; intuition discriminate. }
  destruct (run_backtest_returns qsqrt_heron qpow_interp Hwf
              (ma := [NaN; NaN; NaN; NaN; Num (13 # 5)])
              (close := [Num 1; Num 3; Num 3; Num 3; Num 3]) eq_refl eq_refl)
    as [m [Hm _]]; [discriminate|].
  now exists m.
Defined.

Lemma tripling_is_processed :
  preprocess_data (Some (frame_of_close [Num 1; Num 3; Num 3; Num 3; Num 3])) =
  Return (Some tripling).
Proof. reflexivity. Qed.

(** C5, as stated, fails when the price triples under a Short position: the
    total return is -2, so [1 + total_return] is negative, the exponent
    [252/5] is not an integer and the annualized return is NaN; the
    volatility is positive, and the Sharpe ratio is NaN. *)
Lemma sharpe_ratio_can_be_nan :
  exists m v,
    fst (run_backtest qsqrt_heron qpow_interp tripling) = Return (Some m) /\
    float_at m "total_return" = Some (Num (-2)) /\
    float_at m "average_annual_return" = Some NaN /\
    float_at m "annualized_volatility" = Some v /\
    fgtb v zero = true /\
    float_at m "sharpe_ratio" = Some NaN.
Proof.
  rewrite (run_backtest_eq qsqrt_heron qpow_interp tripling
             (ma := [NaN; NaN; NaN; NaN; Num (13 # 5)])
             (close := [Num 1; Num 3; Num 3; Num 3; Num 3]) eq_refl eq_refl).
  cbn [fst]. unfold metrics_of.
  assert (E : strategy_returns_of [NaN; NaN; NaN; NaN; Num (13 # 5)]
                [Num 1; Num 3; Num 3; Num 3; Num 3] =
              [NaN; Num (-2); Num 0; Num 0; Num 0]) by reflexivity.
  rewrite E.
  change (cumulative_of [NaN; Num (-2); Num 0; Num 0; Num 0])
    with [NaN; Num (-2); Num (-2); Num (-2); Num (-2)].
  cbn [iloc_last last bind nrows tripling int_truediv try_except].
  eexists. eexists.
  split; [reflexivity|].
  split; [reflexivity|].
  split; [reflexivity|].
  split; [reflexivity|].
  split; reflexivity.
Qed.

(* ------------------------------------------------------------------------- *)
(** ** The rolling mean *)

Lemma fin_count_app (a b : series) :
  fin_count (a ++ b) = (fin_count a + fin_count b)%nat.
Proof.
  induction a as [|x a IH]; [reflexivity|].
  destruct x; cbn [app fin_count]; rewrite IH; reflexivity.
Qed.

Lemma fin_sum_app (a b : series) :
  fin_sum (a ++ b) == fin_sum a + fin_sum b.
Proof.
  induction a as [|x a IH]; cbn [app fin_sum]; [ring|].
  destruct x; rewrite IH; ring.
Qed.

Lemma fin_count_le (l : series) : (fin_count l <= List.length l)%nat.
Proof.
  induction l as [|x l IH]; [reflexivity|].
  destruct x; cbn [fin_count List.length]; lia.
Qed.

Lemma fin_count_full (l : series) :
  fin_count l = List.length l <-> forallb isfinite l = true.
Proof.
  induction l as [|x l IH]; [cbn; tauto|].
  pose proof (fin_count_le l) as Hle.
  destruct x; cbn [fin_count List.length forallb isfinite andb].
  - rewrite <- IH. lia.
  - split; [lia | discriminate].
  - split; [lia | discriminate].
  - split; [lia | discriminate].
Qed.

Lemma skipn_cons_nth (l : series) n :
  (n < List.length l)%nat -> skipn n l = nth n l NaN :: skipn (S n) l.
Proof.
  revert n. induction l as [|x l IH]; intros n Hn; cbn [List.length] in Hn;
    [lia|].
  destruct n as [|n]; [reflexivity|].
  cbn [skipn nth]. apply IH. lia.
Qed.

Lemma add_mean_inv (l : series) st v :
  nobs st = fin_count l -> sum_x st == fin_sum l ->
  nobs (add_mean st v) = fin_count (l ++ [v]) /\
  sum_x (add_mean st v) == fin_sum (l ++ [v]).
Proof.
  intros Hn Hs. rewrite fin_count_app, fin_sum_app.
  destruct v; cbn [add_mean nobs sum_x fin_count fin_sum].
  - rewrite Qred_correct, Hs, Hn. split; [lia | ring].
  - rewrite Hs, Hn. split; [lia | ring].
  - rewrite Hs, Hn. split; [lia | ring].
  - rewrite Hs, Hn. split; [lia | ring].
Qed.

Lemma remove_mean_inv (l : series) st x :
  nobs st = fin_count (x :: l) -> sum_x st == fin_sum (x :: l) ->
  nobs (remove_mean st x) = fin_count l /\
  sum_x (remove_mean st x) == fin_sum l.
Proof.
  destruct x; cbn [remove_mean nobs sum_x fin_count fin_sum]; intros Hn Hs;
    try (split; assumption).
  rewrite Qred_correct, Hs, Hn. split; [reflexivity | ring].
Qed.

Section Rolling.
Variable w : nat.
Hypothesis w_pos : (1 <= w)%nat.

Lemma tail_window_snoc_short (seen : series) v :
  (List.length seen < w)%nat ->
  tail_window w seen = seen /\ tail_window w (seen ++ [v]) = seen ++ [v].
Proof.
  intros H. unfold tail_window. rewrite length_app. cbn [List.length].
  replace (List.length seen - w)%nat with 0%nat by lia.
  replace (List.length seen + 1 - w)%nat with 0%nat by lia.
  split; reflexivity.
Qed.

Lemma tail_window_snoc_full (seen : series) v :
  (w <= List.length seen)%nat ->
  tail_window w seen =
    nth (List.length seen - w) seen NaN ::
    skipn (S (List.length seen - w)) seen /\
  tail_window w (seen ++ [v]) =
    skipn (S (List.length seen - w)) seen ++ [v].
Proof.
  intros H. unfold tail_window. split.
  - apply skipn_cons_nth. lia.
  - rewrite length_app. cbn [List.length].
    replace (List.length seen + 1 - w)%nat with (S (List.length seen - w))
      by lia.
    rewrite skipn_app.
    replace (S (List.length seen - w) - List.length seen)%nat with 0%nat
      by lia.
    reflexivity.
Qed.

(** One turn of the loop moves the invariant from the entries seen to the
    entries seen plus the one just read. *)
Lemma roll_step_inv (seen rest : series) v st :
  roll_inv w seen st ->
  roll_inv w (seen ++ [v])
    (add_mean
       (if (w <=? List.length seen)%nat
        then remove_mean st
               (nth (List.length seen - w) (seen ++ v :: rest) NaN)
        else st)
       v).
Proof.
  intros [Hn Hs]. unfold roll_inv.
  destruct (w <=? List.length seen)%nat eqn:E.
  - apply Nat.leb_le in E.
    destruct (tail_window_snoc_full seen v E) as [H1 H2].
    rewrite app_nth1 by lia. rewrite H1 in Hn, Hs. rewrite H2.
    destruct (remove_mean_inv _ _ _ Hn Hs) as [Hn' Hs'].
    now apply add_mean_inv.
  - apply Nat.leb_gt in E.
    destruct (tail_window_snoc_short seen v E) as [H1 H2].
    rewrite H1 in Hn, Hs. rewrite H2. now apply add_mean_inv.
Qed.

Lemma calc_mean_spec (l : series) st :
  nobs st = fin_count l -> sum_x st == fin_sum l ->
  calc_mean w st = roll_spec w l.
Proof.
  intros Hn Hs. unfold calc_mean, roll_spec. rewrite Hn.
  destruct ((w <=? fin_count l) && (0 <? fin_count l))%nat eqn:E;
    [|reflexivity].
  apply andb_prop in E. destruct E as [_ E]. apply Nat.ltb_lt in E.
  unfold fdiv, of_nat.
  destruct (Qeq_bool (inject_Z (Z.of_nat (fin_count l))) 0) eqn:E0.
  - apply Qeq_bool_iff in E0. unfold Qeq in E0. cbn in E0. lia.
  - f_equal. apply Qred_complete. now rewrite Hs.
Qed.

Lemma roll_mean_loop_nth (rest seen : series) st k :
  roll_inv w seen st ->
  (k < List.length rest)%nat ->
  nth_error
    (roll_mean_loop w w (seen ++ rest) (List.length seen) rest st) k =
  Some (roll_spec w (tail_window w (seen ++ firstn (S k) rest))).
Proof.
  revert seen st k. induction rest as [|v rest IH]; intros seen st k Hinv Hk;
    cbn [List.length] in Hk; [lia|].
  pose proof (@roll_step_inv seen rest v st Hinv) as Hstep.
  cbn [roll_mean_loop].
  set (st2 := add_mean _ v) in *.
  destruct k as [|k].
  - cbn [nth_error firstn]. f_equal.
    destruct Hstep as [Hn Hs]. now apply calc_mean_spec.
  - cbn [nth_error].
    replace (seen ++ v :: rest) with ((seen ++ [v]) ++ rest)
      by (now rewrite <- app_assoc).
    replace (S (List.length seen)) with (List.length (seen ++ [v]))
      by (rewrite length_app; cbn; lia).
    replace (seen ++ firstn (S (S k)) (v :: rest))
      with ((seen ++ [v]) ++ firstn (S k) rest)
      by (now rewrite <- app_assoc).
    apply IH; [exact Hstep | lia].
Qed.
End Rolling.

Lemma fin_count_prep (l : series) : fin_count (prep_values l) = fin_count l.
Proof.
  unfold prep_values. induction l as [|x l IH]; [reflexivity|].
  destruct x; cbn [map isinf fin_count]; now rewrite IH.
Qed.

Lemma fin_sum_prep (l : series) : fin_sum (prep_values l) = fin_sum l.
Proof.
  unfold prep_values. induction l as [|x l IH]; [reflexivity|].
  destruct x; cbn [map isinf fin_sum]; now rewrite IH.
Qed.

Lemma roll_spec_prep w (l : series) :
  roll_spec w (prep_values l) = roll_spec w l.
Proof. unfold roll_spec. now rewrite fin_count_prep, fin_sum_prep. Qed.

Lemma tail_window_prep w (l : series) :
  tail_window w (prep_values l) = prep_values (tail_window w l).
Proof.
  unfold tail_window, prep_values. now rewrite length_map, skipn_map.
Qed.

Lemma length_roll_mean_loop w minp values i (rest : series) st :
  List.length (roll_mean_loop w minp values i rest st) = List.length rest.
Proof.
  revert i st. induction rest as [|v rest IH]; intros i st; [reflexivity|].
  cbn [roll_mean_loop List.length]. now rewrite IH.
Qed.

Lemma length_rolling_mean w (s : series) :
  List.length (rolling_mean w s) = List.length s.
Proof.
  unfold rolling_mean, prep_values.
  now rewrite length_roll_mean_loop, length_map.
Qed.

(** Row [i] of the rolling mean is computed from the last [w] entries up to
    row [i]. *)
Lemma rolling_mean_nth w (s : series) i :
  (1 <= w)%nat -> (i < List.length s)%nat ->
  nth_error (rolling_mean w s) i =
  Some (roll_spec w (tail_window w (firstn (S i) s))).
Proof.
  intros Hw Hi. unfold rolling_mean.
  assert (Hinv : roll_inv w [] {| nobs := 0; sum_x := 0 |}).
  { unfold roll_inv, tail_window. cbn. split; reflexivity. }
  pose proof (@roll_mean_loop_nth w Hw (prep_values s) [] _ i Hinv) as H.
  cbn [app List.length] in H. rewrite H.
  - unfold prep_values at 1. rewrite firstn_map.
    fold (prep_values (firstn (S i) s)).
    now rewrite tail_window_prep, roll_spec_prep.
  - unfold prep_values. now rewrite length_map.
Qed.

Lemma tail_window_firstn w (s : series) i :
  (w <= S i)%nat -> (i < List.length s)%nat ->
  tail_window w (firstn (S i) s) = window w i s.
Proof.
  intros Hw Hi. unfold tail_window, window.
  rewrite length_firstn, Nat.min_l by lia.
  rewrite firstn_skipn_comm.
  replace (i + 1 - w + w)%nat with (S i) by lia.
  replace (i + 1 - w)%nat with (S i - w)%nat by lia.
  reflexivity.
Qed.

Lemma length_window w (s : series) i :
  (w <= S i)%nat -> (i < List.length s)%nat ->
  List.length (window w i s) = w.
Proof.
  intros Hw Hi. unfold window. rewrite length_firstn, length_skipn. lia.
Qed.

Lemma fold_fadd_finite (l : series) a :
  forallb isfinite l = true ->
  exists q, fold_left fadd l (Num a) = Num q /\ q == a + fin_sum l.
Proof.
  revert a. induction l as [|x l IH]; intros a H.
  - exists a. split; [reflexivity | cbn; ring].
  - cbn [forallb] in H. apply andb_prop in H. destruct H as [Hx Hl].
    destruct x as [b| | |]; try discriminate Hx.
    cbn [fold_left fadd fin_sum].
    destruct (IH (Qred (a + b)) Hl) as [q [E1 E2]].
    exists q. split; [exact E1|]. rewrite E2, Qred_correct. ring.
Qed.

(** On a full window the loop's result is the arithmetic mean. *)
Lemma roll_spec_full w (l : series) :
  (1 <= w)%nat -> List.length l = w -> roll_spec w l = window_mean l.
Proof.
  intros Hw Hlen. unfold roll_spec, window_mean.
  destruct (forallb isfinite l) eqn:E.
  - pose proof (proj2 (fin_count_full l) E) as Hc. rewrite Hc, Hlen.
    replace ((w <=? w) && (0 <? w))%nat with true
      by (symmetry; apply andb_true_intro; split;
          [apply Nat.leb_le | apply Nat.ltb_lt]; lia).
    destruct (fold_fadd_finite l 0 E) as [q [E1 E2]].
    unfold fsum, zero. rewrite E1. unfold fdiv, of_nat.
    destruct (Qeq_bool (inject_Z (Z.of_nat w)) 0) eqn:E0.
    + apply Qeq_bool_iff in E0. unfold Qeq in E0. cbn in E0. lia.
    + f_equal. apply Qred_complete. rewrite E2, Qplus_0_l. reflexivity.
  - assert (Hc : fin_count l <> List.length l).
    { intros Hc. apply fin_count_full in Hc. congruence. }
    pose proof (fin_count_le l) as Hle.
    replace (w <=? fin_count l)%nat with false
      by (symmetry; apply Nat.leb_gt; lia).
    reflexivity.
Qed.

Lemma roll_spec_short w (l : series) :
  (List.length l < w)%nat -> roll_spec w l = NaN.
Proof.
  intros H. unfold roll_spec. pose proof (fin_count_le l) as Hle.
  replace (w <=? fin_count l)%nat with false
    by (symmetry; apply Nat.leb_gt; lia).
  reflexivity.
Qed.

Lemma rolling_mean_warmup w (s : series) i :
  (1 <= w)%nat -> (S i < w)%nat -> (i < List.length s)%nat ->
  nth_error (rolling_mean w s) i = Some NaN.
Proof.
  intros Hw Hi Hlen. rewrite rolling_mean_nth by assumption. f_equal.
  apply roll_spec_short. unfold tail_window.
  rewrite length_skipn, length_firstn. lia.
Qed.

Lemma rolling_mean_window w (s : series) i :
  (1 <= w)%nat -> (w <= S i)%nat -> (i < List.length s)%nat ->
  nth_error (rolling_mean w s) i = Some (window_mean (window w i s)).
Proof.
  intros Hw Hi Hlen. rewrite rolling_mean_nth by assumption. f_equal.
  rewrite tail_window_firstn by assumption.
  apply roll_spec_full; [assumption|]. now apply length_window.
Qed.

(* ------------------------------------------------------------------------- *)
(** ** [preprocess_data] *)

Lemma dict_get_map V W (f : string * V -> W) (d : dict V) k :
  dict_get (map (fun c => (fst c, f c)) d) k =
  option_map (fun v => f (k, v)) (dict_get d k).
Proof.
  induction d as [|[k0 v0] d IH]; [reflexivity|].
  cbn [map dict_get fst]. destruct (String.eqb k0 k) eqn:E; [|exact IH].
  apply String.eqb_eq in E. now subst.
Qed.

Lemma df_mean_get df k :
  dict_get (df_mean df) k = option_map series_mean (dict_get (columns df) k).
Proof. unfold df_mean. now rewrite dict_get_map. Qed.

(** Each column is filled with its own mean. *)
Lemma df_fillna_mean_get df k :
  dict_get (columns (df_fillna df (df_mean df))) k =
  option_map (fun s => series_fillna s (series_mean s))
             (dict_get (columns df) k).
Proof.
  unfold df_fillna. cbn [columns]. rewrite dict_get_map. cbn [fst snd].
  rewrite df_mean_get. now destruct (dict_get (columns df) k).
Qed.

Lemma preprocess_data_no_close df :
  dict_get (columns df) "Close" = None -> preprocess_data (Some df) = Return None.
Proof.
  intros H. unfold preprocess_data, getitem.
  now rewrite df_fillna_mean_get, H.
Qed.

(** What a successful call returns. *)
Lemma preprocess_data_eq df dfp :
  preprocess_data (Some df) = Return (Some dfp) ->
  exists close0,
    dict_get (columns df) "Close" = Some close0 /\
    dfp = setitem (df_fillna df (df_mean df)) "MA_5"
            (rolling_mean 5 (series_fillna close0 (series_mean close0))).
Proof.
  unfold preprocess_data, getitem. rewrite df_fillna_mean_get.
  destruct (dict_get (columns df) "Close") as [close0|];
    cbn [option_map bind try_except]; [|discriminate].
  intros [= <-]. now exists close0.
Qed.

Example window_mean_scenario :
  window 5 4 scenario_close = [Num 100; Num 102; Num 101; Num 105; Num 107] /\
  window_mean (window 5 4 scenario_close) = Num 103 /\
  window_mean (window 5 6 scenario_close) = Num (529 # 5) /\
  window_mean [Num 1; NaN; Num 3] = NaN.
Proof. repeat split. Qed.

(** C6.  In the frame [preprocess_data] returns, [Close] is the input
    [Close] with its NaN cells filled by the column mean, and [MA_5] has one
    entry per row: NaN at rows 0 to 3, and at every row [i >= 4] the
    arithmetic mean of [Close[i-4..i]]. *)
Theorem moving_average_rule (df dfp : DataFrame) :
  preprocess_data (Some df) = Return (Some dfp) ->
  exists close0 close ma,
    dict_get (columns df) "Close" = Some close0 /\
    close = series_fillna close0 (series_mean close0) /\
    dict_get (columns dfp) "Close" = Some close /\
    dict_get (columns dfp) "MA_5" = Some ma /\
    nrows dfp = nrows df /\
    List.length ma = List.length close /\
    List.length close = List.length close0 /\
    (wf df -> List.length close = nrows df) /\
    (forall i, (i < 4)%nat -> (i < List.length close)%nat ->
               nth_error ma i = Some NaN) /\
    (forall i, (4 <= i)%nat -> (i < List.length close)%nat ->
               nth_error ma i = Some (window_mean (window 5 i close))).
Proof.
  intros H. destruct (@preprocess_data_eq df dfp H) as [close0 [Hc ->]].
  exists close0, (series_fillna close0 (series_mean close0)),
    (rolling_mean 5 (series_fillna close0 (series_mean close0))).
  cbn [setitem columns nrows df_fillna].
  repeat split; try assumption.
  - rewrite dict_get_set. cbn [String.eqb Ascii.eqb Bool.eqb].
    change (map _ (columns df))
      with (columns (df_fillna df (df_mean df))).
    now rewrite df_fillna_mean_get, Hc.
  - rewrite dict_get_set. now rewrite String.eqb_refl.
  - apply length_rolling_mean.
  - unfold series_fillna. apply length_map.
  - intros Hwf. unfold series_fillna. rewrite length_map.
    exact (wf_column_length _ Hwf Hc).
  - intros i Hi Hlen. apply rolling_mean_warmup; lia.
  - intros i Hi Hlen. apply rolling_mean_window; lia.
Qed.

(** [moving_average_rule] on the scenario. *)
Lemma moving_average_rule_witness :
  exists close0 close ma,
    dict_get (columns scenario_raw) "Close" = Some close0 /\
    close = series_fillna close0 (series_mean close0) /\
    dict_get (columns scenario_processed) "Close" = Some close /\
    dict_get (columns scenario_processed) "MA_5" = Some ma /\
    nrows scenario_processed = nrows scenario_raw /\
    List.length ma = List.length close /\
    List.length close = List.length close0 /\
    (wf scenario_raw -> List.length close = nrows scenario_raw) /\
    (forall i, (i < 4)%nat -> (i < List.length close)%nat ->
               nth_error ma i = Some NaN) /\
    (forall i, (4 <= i)%nat -> (i < List.length close)%nat ->
               nth_error ma i = Some (window_mean (window 5 i close))).
Proof.
  apply (@moving_average_rule scenario_raw scenario_processed).
  reflexivity.
Defined.

(* ------------------------------------------------------------------------- *)
(** ** Running the feature stage twice *)

Lemma series_fillna_nan (s : series) : series_fillna s NaN = s.
Proof.
  unfold series_fillna. induction s as [|x s IH]; [reflexivity|].
  cbn [map]. rewrite IH. now destruct x.
Qed.

Lemma series_fillna_notna (s : series) v :
  forallb (fun x => negb (isnan x)) s = true -> series_fillna s v = s.
Proof.
  unfold series_fillna. induction s as [|x s IH]; [reflexivity|].
  cbn [forallb map]. intros H. apply andb_prop in H. destruct H as [Hx Hs].
  rewrite (IH Hs). now destruct x.
Qed.

Lemma series_fillna_filled (s : series) v :
  isnan v = false ->
  forallb (fun x => negb (isnan x)) (series_fillna s v) = true.
Proof.
  intros Hv. unfold series_fillna. induction s as [|x s IH]; [reflexivity|].
  cbn [map forallb]. rewrite IH, andb_true_r.
  destruct (isnan x) eqn:E; [now rewrite Hv | now rewrite E].
Qed.

(** A column filled with its mean has nothing left to fill. *)
Lemma series_fillna_idem (s : series) :
  let s' := series_fillna s (series_mean s) in
  series_fillna s' (series_mean s') = s'.
Proof.
  cbv zeta. destruct (isnan (series_mean s)) eqn:E.
  - destruct (series_mean s) eqn:Em; try discriminate E.
    rewrite series_fillna_nan, Em. apply series_fillna_nan.
  - apply series_fillna_notna. now apply series_fillna_filled.
Qed.

Lemma dict_get_NoDup_In V (d : dict V) k v :
  NoDup (dict_keys d) -> In (k, v) d -> dict_get d k = Some v.
Proof.
  induction d as [|[k0 v0] d IH]; cbn [dict_keys map fst]; [easy|].
  intros Hnd [H|H]; cbn [dict_get].
  - injection H as -> ->. now rewrite String.eqb_refl.
  - apply NoDup_cons_iff in Hnd. destruct Hnd as [Hk0 Hnd].
    destruct (String.eqb k0 k) eqn:E.
    + apply String.eqb_eq in E. subst k0. exfalso. apply Hk0.
      change k with (fst (k, v)). now apply in_map.
    + now apply IH.
Qed.

Section Refill.
Variable mu : string -> option fval.

Let refill (c : string * series) : string * series :=
  (fst c,
   match mu (fst c) with
   | Some v => series_fillna (snd c) v
   | None => snd c
   end).

Lemma refill_fixed (l : dict series) :
  (forall c, In c l -> refill c = c) -> map refill l = l.
Proof.
  induction l as [|c l IH]; [reflexivity|].
  intros H. cbn [map]. rewrite (H c (or_introl eq_refl)).
  rewrite IH; [reflexivity|]. intros c' Hc'. apply H. now right.
Qed.

(** Filling again and assigning the same column again restores the frame,
    when every other column is already filled. *)
Lemma refill_set (l : dict series) k r :
  NoDup (dict_keys l) ->
  (forall c, In c l -> fst c <> k -> refill c = c) ->
  dict_set (map refill (dict_set l k r)) k r = dict_set l k r.
Proof.
  induction l as [|[k0 c0] l IH]; intros Hnd H.
  - cbn. now rewrite String.eqb_refl.
  - cbn [dict_keys map fst] in Hnd. apply NoDup_cons_iff in Hnd.
    destruct Hnd as [Hk0 Hnd]. cbn [dict_set].
    destruct (String.eqb k0 k) eqn:E.
    + apply String.eqb_eq in E. subst k0.
      cbn [map refill fst dict_set]. rewrite String.eqb_refl. f_equal.
      apply refill_fixed. intros c Hc. apply H; [now right|].
      intros Hk. apply Hk0. rewrite <- Hk.
      unfold dict_keys. now apply in_map.
    + cbn [map dict_set].
      assert (Hc0 : refill (k0, c0) = (k0, c0)).
      { apply H; [now left|]. cbn. intros ->.
        now rewrite String.eqb_refl in E. }
      rewrite Hc0. cbn [dict_set]. rewrite E. f_equal.
      apply IH; [exact Hnd|]. intros c Hc. apply H. now right.
Qed.
End Refill.

Lemma df_fillna_keys df value :
  dict_keys (columns (df_fillna df value)) = dict_keys (columns df).
Proof.
  unfold df_fillna, dict_keys. cbn [columns]. rewrite map_map.
  reflexivity.
Qed.

(** C7.  On a well-formed frame the feature stage is idempotent: applied to
    the frame it returned, it returns that same frame, with the same columns
    in the same order and the same cells. *)
Theorem preprocess_data_idempotent (df dfp : DataFrame) :
  wf df ->
  preprocess_data (Some df) = Return (Some dfp) ->
  preprocess_data (Some dfp) = Return (Some dfp).
Proof.
  intros [_ Hnd] H.
  destruct (@preprocess_data_eq df dfp H) as [close0 [Hc Hdfp]]. clear H.
  set (filled := df_fillna df (df_mean df)) in *.
  set (close := series_fillna close0 (series_mean close0)) in *.
  set (r := rolling_mean 5 close) in *.
  assert (Hfk : NoDup (dict_keys (columns filled))).
  { unfold filled. now rewrite df_fillna_keys. }
  assert (Hclose : dict_get (columns dfp) "Close" = Some close).
  { rewrite Hdfp. cbn [setitem columns]. rewrite dict_get_set.
    cbn [String.eqb Ascii.eqb Bool.eqb]. unfold filled.
    now rewrite df_fillna_mean_get, Hc. }
  assert (Hrefill :
            dict_set (columns (df_fillna dfp (df_mean dfp))) "MA_5" r =
            columns dfp).
  { assert (Hcols : columns dfp = dict_set (columns filled) "MA_5" r)
      by now rewrite Hdfp.
    unfold df_fillna. cbn [columns]. rewrite Hcols.
    apply (refill_set (dict_get (df_mean dfp))); [exact Hfk|].
    intros [k c] Hin Hk. cbn [fst snd] in *. f_equal.
    rewrite df_mean_get, Hdfp. cbn [setitem columns].
    rewrite dict_get_set.
    destruct (String.eqb "MA_5" k) eqn:E;
      [apply String.eqb_eq in E; congruence|].
    pose proof (@dict_get_NoDup_In _ _ k c Hfk Hin) as Hget.
    rewrite Hget. cbn [option_map].
    unfold filled in Hget. rewrite df_fillna_mean_get in Hget.
    destruct (dict_get (columns df) k) as [c_in|]; [|discriminate].
    cbn [option_map] in Hget. injection Hget as <-.
    apply series_fillna_idem. }
  unfold preprocess_data, getitem.
  rewrite df_fillna_mean_get, Hclose. cbn [option_map].
  unfold close at 1 2. rewrite series_fillna_idem. fold close.
  cbn [bind try_except]. do 2 f_equal.
  unfold setitem. unfold r in Hrefill. rewrite Hrefill. cbn [df_fillna nrows].
  now destruct dfp.
Qed.

(** [preprocess_data_idempotent] on the scenario. *)
Lemma preprocess_data_idempotent_witness :
  preprocess_data (Some scenario_processed) = Return (Some scenario_processed).
Proof.
  apply (@preprocess_data_idempotent scenario_raw scenario_processed).
  - split.
    + repeat constructor.
    + cbn. repeat constructor. cbn. intuition.
  - reflexivity.
Defined.

(* ------------------------------------------------------------------------- *)
(** ** [load_data] *)

(** X1.  [load_data] returns a frame exactly when the file type is ["csv"]
    and [read_csv] returned it, or the file type is ["parquet"] and
    [read_parquet] returned it; in every other case (another file type, a
    missing file, any error of the reader) it returns [None].  It never
    raises. *)
Theorem load_data_result (fs : FileSystem) (file_path file_type : string)
    (df : DataFrame) :
  (load_data fs file_path file_type = Return (Some df) <->
   (file_type = "csv"%string /\ read_csv fs file_path = Return df) \/
   (file_type = "parquet"%string /\ read_parquet fs file_path = Return df)) /\
  (load_data fs file_path file_type = Return None \/
   exists df', load_data fs file_path file_type = Return (Some df')).
Proof.
  unfold load_data.
  destruct (String.eqb file_type "csv") eqn:Ec.
  - apply String.eqb_eq in Ec. subst file_type.
    destruct (read_csv fs file_path) as [d|e]; cbn [bind try_except].
    + split; [|right; now exists d]. split.
      * intros [= ->]. left. now split.
      * intros [[_ [= ->]]|[H _]]; [reflexivity | discriminate H].
    + split; [|now left]. split; [discriminate|].
      intros [[_ H]|[H _]]; discriminate H.
  - apply String.eqb_neq in Ec.
    destruct (String.eqb file_type "parquet") eqn:Ep.
    + apply String.eqb_eq in Ep. subst file_type.
      destruct (read_parquet fs file_path) as [d|e]; cbn [bind try_except].
      * split; [|right; now exists d]. split.
        -- intros [= ->]. right. now split.
        -- intros [[H _]|[_ [= ->]]]; [discriminate H | reflexivity].
      * split; [|now left]. split; [discriminate|].
        intros [[H _]|[_ H]]; discriminate H.
    + apply String.eqb_neq in Ep. cbn [try_except].
      split; [|now left]. split; [discriminate|].
      intros [[H _]|[H _]]; contradiction.
Qed.

(* ------------------------------------------------------------------------- *)
(** ** The MATLAB adapter: sessions and padding *)

(** X2.  Whatever the engine does, [run_matlab_simulation] ends with the
    session count it found or with one more, never with fewer; and whenever
    it returns a result, or is given no frame, the count is the one it
    found: a result is only returned after [eng.quit()]. *)
Theorem matlab_session_accounting (eng : MatlabEngine)
    (df : option DataFrame) (path : string) (live : sessions) :
  (live <= snd (run_matlab_simulation eng df path live) <= S live)%nat /\
  (forall v, fst (run_matlab_simulation eng df path live) = Return (Some v) ->
             snd (run_matlab_simulation eng df path live) = live) /\
  (df = None -> run_matlab_simulation eng df path live = (Return None, live)).
Proof.
  destruct df as [d|]; [|cbn; repeat split; try lia; discriminate].
  unfold run_matlab_simulation, stry, sbind, start_matlab, quit, slift, sret,
    to_dict_list.
  destruct (eng_start eng) as [[]|e0]; [|cbn; repeat split; try lia; discriminate].
  destruct (py_max _) as [m|e1]; [|cbn; repeat split; try lia; discriminate].
  destruct (eng_struct eng _) as [h|e2].
  - destruct (eng_eval eng _) as [res|e3];
      [|cbn; repeat split; try lia; discriminate].
    destruct (eng_quit eng) as [[]|e4];
      cbn; repeat split; try lia; discriminate.
  - destruct (eng_quit eng) as [[]|e4];
      cbn; repeat split; try lia; discriminate.
Qed.

Lemma fold_max_ge (l : list nat) (a : nat) :
  (a <= fold_left Nat.max l a)%nat /\
  Forall (fun x => x <= fold_left Nat.max l a)%nat l.
Proof.
  revert a. induction l as [|x l IH]; intros a; cbn [fold_left].
  - split; [lia | constructor].
  - destruct (IH (Nat.max a x)) as [H1 H2]. split; [lia|].
    constructor; [lia | exact H2].
Qed.

Lemma py_max_ge (l : list nat) m :
  py_max l = Return m -> Forall (fun x => x <= m)%nat l.
Proof.
  destruct l as [|x l]; cbn [py_max]; [discriminate|].
  intros [= <-]. destruct (fold_max_ge l x) as [H1 H2].
  constructor; assumption.
Qed.

Lemma pad_columns_lengths (d : dict series) m :
  Forall (fun kv => List.length (snd kv) <= m)%nat d ->
  Forall (fun kv => List.length (snd kv) = m) (pad_columns d m).
Proof.
  induction 1 as [|[k c] d Hc Hd IH]; cbn [pad_columns map]; constructor;
    [|exact IH].
  cbn [fst snd] in *. destruct (List.length c <? m)%nat eqn:E.
  - rewrite length_app, repeat_length. lia.
  - apply Nat.ltb_ge in E. lia.
Qed.

Lemma pad_columns_cells (d : dict series) m :
  Forall2 (fun kv kv' =>
             fst kv' = fst kv /\
             snd kv' = snd kv ++ repeat NaN (m - List.length (snd kv)))
          d (pad_columns d m).
Proof.
  induction d as [|[k c] d IH]; cbn [pad_columns map]; constructor;
    [|exact IH].
  cbn [fst snd]. split; [reflexivity|].
  destruct (List.length c <? m)%nat eqn:E; [reflexivity|].
  apply Nat.ltb_ge in E.
  replace (m - List.length c)%nat with 0%nat by lia.
  cbn [repeat]. now rewrite app_nil_r.
Qed.

(** X3.  The dict handed to [eng.struct] has columns of one length, the
    longest column's: every column keeps its label and is its own cells
    followed by as many NaN as it is short of that length (none for a
    column of full length). *)
Theorem pad_columns_equal_length (data_dict : dict series) (max_len : nat) :
  py_max (map (fun kv => List.length (snd kv)) data_dict) = Return max_len ->
  Forall (fun kv => List.length (snd kv) = max_len)
         (pad_columns data_dict max_len) /\
  Forall2 (fun kv kv' =>
             fst kv' = fst kv /\
             snd kv' =
               snd kv ++ repeat NaN (max_len - List.length (snd kv)))
          data_dict (pad_columns data_dict max_len).
Proof.
  intros H. split; [|apply pad_columns_cells].
  apply pad_columns_lengths. apply py_max_ge in H.
  rewrite Forall_map in H. exact H.
Qed.

(** [pad_columns_equal_length] on three columns of lengths 3, 1 and 0. *)
Lemma pad_columns_equal_length_witness :
  Forall (fun kv => List.length (snd kv) = 3%nat)
         (pad_columns ragged_dict 3) /\
  Forall2 (fun kv kv' =>
             fst kv' = fst kv /\
             snd kv' = snd kv ++ repeat NaN (3 - List.length (snd kv)))
          ragged_dict (pad_columns ragged_dict 3).
Proof.
  apply (@pad_columns_equal_length ragged_dict 3%nat).
  reflexivity.
Defined.

(** The padded sample, cell by cell. *)
Example pad_columns_ragged :
  pad_columns ragged_dict 3 =
  [("a", [Num 1; Num 2; Num 3]); ("b", [Num 4; NaN; NaN]);
   ("c", [NaN; NaN; NaN])]%string.
Proof. reflexivity. Qed.

Lemma pad_columns_same (d : dict series) m :
  Forall (fun kv => List.length (snd kv) = m) d -> pad_columns d m = d.
Proof.
  induction 1 as [|[k c] d Hc Hd IH]; [reflexivity|].
  cbn [pad_columns map fst snd] in *. fold (pad_columns d m). rewrite IH.
  now rewrite Hc, Nat.ltb_irrefl.
Qed.

Lemma fold_max_same (l : list nat) (a : nat) :
  Forall (fun x => x = a) l -> fold_left Nat.max l a = a.
Proof.
  induction 1 as [|x l Hx Hl IH]; [reflexivity|].
  cbn [fold_left]. subst x. now rewrite Nat.max_id.
Qed.

(** X4.  For a well-formed frame with at least one column the padding step
    does nothing: the longest column has [len(df)] cells and the dict handed
    to [eng.struct] is exactly the frame's columns. *)
Theorem pad_columns_of_frame (df : DataFrame) :
  wf df -> columns df <> [] ->
  py_max (map (fun kv => List.length (snd kv)) (to_dict_list df)) =
    Return (nrows df) /\
  pad_columns (to_dict_list df) (nrows df) = columns df.
Proof.
  intros [Hlen _] Hne. unfold to_dict_list. split.
  - destruct (columns df) as [|[k c] cs]; [congruence|].
    cbn [map py_max snd]. inversion Hlen as [|? ? Hc Hcs]; subst.
    cbn [snd] in Hc. rewrite Hc. f_equal. apply fold_max_same.
    rewrite Forall_map. exact Hcs.
  - now apply pad_columns_same.
Qed.

(** [pad_columns_of_frame] on the processed scenario. *)
Lemma pad_columns_of_frame_witness :
  py_max (map (fun kv => List.length (snd kv))
              (to_dict_list scenario_processed)) =
    Return (nrows scenario_processed) /\
  pad_columns (to_dict_list scenario_processed) (nrows scenario_processed) =
  columns scenario_processed.
Proof.
  apply (@pad_columns_of_frame scenario_processed).
  - split.
    + repeat constructor.
    + cbn. repeat constructor; cbn; intuition discriminate.
  - discriminate.
Defined.

(* ------------------------------------------------------------------------- *)
(** ** The R adapter's result dict *)




(* ------------------------------------------------------------------------- *)
(** ** Well-formed frames stay well-formed *)

Lemma dict_get_None_keys V (d : dict V) k :
  dict_get d k = None <-> ~ In k (dict_keys d).
Proof.
  induction d as [|[k0 v0] d IH]; cbn [dict_get dict_keys map fst].
  - split; [intros _ [] | reflexivity].
  - destruct (String.eqb k0 k) eqn:E.
    + apply String.eqb_eq in E. subst. split; [discriminate|].
      intros H. exfalso. apply H. now left.
    + apply String.eqb_neq in E. rewrite IH. unfold dict_keys.
      split; [intros H [H'|H']; [congruence | now apply H] |].
      intros H H'. apply H. now right.
Qed.

(** Assigning a key keeps the key order and appends a new key last. *)
Lemma dict_keys_set V (d : dict V) k v :
  dict_keys (dict_set d k v) =
  match dict_get d k with
  | Some _ => dict_keys d
  | None => dict_keys d ++ [k]
  end.
Proof.
  unfold dict_keys. induction d as [|[k0 v0] d IH]; [reflexivity|].
  cbn [dict_set dict_get]. destruct (String.eqb k0 k) eqn:E;
    [reflexivity|].
  cbn [map fst]. rewrite IH.
  now destruct (dict_get d k).
Qed.

Lemma dict_set_NoDup V (d : dict V) k v :
  NoDup (dict_keys d) -> NoDup (dict_keys (dict_set d k v)).
Proof.
  intros H. rewrite dict_keys_set.
  destruct (dict_get d k) eqn:E; [exact H|].
  apply dict_get_None_keys in E.
  apply NoDup_app; [exact H | repeat constructor; intros [] |].
  intros x Hx [<-|[]]. contradiction.
Qed.

Lemma dict_set_Forall V (P : string * V -> Prop) (d : dict V) k v :
  Forall P d -> (forall k', P (k', v)) -> Forall P (dict_set d k v).
Proof.
  intros H Hv. induction H as [|[k0 v0] d Hc Hd IH]; cbn [dict_set].
  - repeat constructor. apply Hv.
  - destruct (String.eqb k0 k); constructor; auto.
Qed.

Lemma wf_setitem (df : DataFrame) k (s : series) :
  wf df -> List.length s = nrows df -> wf (setitem df k s).
Proof.
  intros [Hlen Hnd] Hs. split; cbn [setitem columns nrows].
  - apply dict_set_Forall; [exact Hlen | intros k'; exact Hs].
  - now apply dict_set_NoDup.
Qed.

Lemma wf_df_fillna (df : DataFrame) value :
  wf df -> wf (df_fillna df value).
Proof.
  intros [Hlen Hnd]. split.
  - unfold df_fillna. cbn [columns nrows]. rewrite Forall_map.
    eapply Forall_impl; [|exact Hlen]. intros [k c] Hc. cbn [fst snd] in *.
    destruct (dict_get value k); [|exact Hc].
    unfold series_fillna. now rewrite length_map.
  - now rewrite df_fillna_keys.
Qed.

Lemma wf_frame_after (df : DataFrame) (ma close : series) :
  wf df ->
  List.length ma = nrows df -> List.length close = nrows df ->
  wf (frame_after df ma close).
Proof.
  intros Hwf Hm Hc. unfold frame_after.
  assert (Hp : List.length (where_gt ma close) = nrows df)
    by (rewrite length_where_gt; lia).
  assert (Hr : List.length (pct_change close) = nrows df)
    by now rewrite length_pct_change.
  repeat apply wf_setitem; cbn [setitem nrows]; try assumption.
  - now rewrite length_shift1.
  - unfold series_mul. rewrite length_map, length_combine, length_shift1.
    lia.
Qed.

(** X6.  Both stages that produce or write frames keep the frame invariant:
    on a well-formed frame, the frame [preprocess_data] returns and the frame
    [run_backtest] leaves behind are well-formed again (every column, the
    new ones included, has one cell per row and labels stay distinct). *)
Theorem stages_preserve_wf (qsqrt : Q -> Q) (qpow : Q -> Q -> Q)
    (df : DataFrame) :
  wf df ->
  (forall dfp, preprocess_data (Some df) = Return (Some dfp) -> wf dfp) /\
  wf (snd (run_backtest qsqrt qpow df)).
Proof.
  intros Hwf. split.
  - intros dfp H. destruct (@preprocess_data_eq df dfp H) as [c0 [Hc ->]].
    apply wf_setitem; [now apply wf_df_fillna|].
    rewrite length_rolling_mean. unfold series_fillna. rewrite length_map.
    cbn [df_fillna nrows]. exact (wf_column_length _ Hwf Hc).
  - destruct (dict_get (columns df) "MA_5") as [ma|] eqn:Hm.
    2:{ now rewrite (run_backtest_no_ma qsqrt qpow df Hm). }
    destruct (dict_get (columns df) "Close") as [close|] eqn:Hc.
    2:{ now rewrite (run_backtest_no_close qsqrt qpow df Hm Hc). }
    rewrite (run_backtest_eq qsqrt qpow df Hm Hc). cbn [snd].
    apply wf_frame_after; [exact Hwf | |].
    + exact (wf_column_length _ Hwf Hm).
    + exact (wf_column_length _ Hwf Hc).
Qed.

(** [stages_preserve_wf] on the raw scenario frame. *)
Lemma stages_preserve_wf_witness :
  (forall dfp,
     preprocess_data (Some scenario_raw) = Return (Some dfp) -> wf dfp) /\
  wf (snd (run_backtest qsqrt_heron qpow_interp scenario_raw)).
Proof.
  apply (@stages_preserve_wf qsqrt_heron qpow_interp scenario_raw).
  split.
  - repeat constructor.
  - cbn. repeat constructor. cbn. intuition.
Defined.

(** X7.  [preprocess_data] keeps the row count and the input's columns in
    their order; [MA_5] takes the place of an existing [MA_5] column and is
    appended last otherwise, so the result never has two of them. *)
Theorem preprocess_data_columns (df dfp : DataFrame) :
  preprocess_data (Some df) = Return (Some dfp) ->
  nrows dfp = nrows df /\
  dict_keys (columns dfp) =
  match dict_get (columns df) "MA_5" with
  | Some _ => dict_keys (columns df)
  | None => dict_keys (columns df) ++ ["MA_5"%string]
  end.
Proof.
  intros H. destruct (@preprocess_data_eq df dfp H) as [c0 [Hc ->]].
  split; [reflexivity|].
  cbn [setitem columns]. rewrite dict_keys_set, df_fillna_mean_get.
  rewrite df_fillna_keys.
  now destruct (dict_get (columns df) "MA_5").
Qed.

(** [preprocess_data_columns] on the scenario: [Close], then [MA_5]. *)
Lemma preprocess_data_columns_witness :
  nrows scenario_processed = nrows scenario_raw /\
  dict_keys (columns scenario_processed) =
  match dict_get (columns scenario_raw) "MA_5" with
  | Some _ => dict_keys (columns scenario_raw)
  | None => dict_keys (columns scenario_raw) ++ ["MA_5"%string]
  end.
Proof.
  apply (@preprocess_data_columns scenario_raw scenario_processed).
  reflexivity.
Defined.

(* ------------------------------------------------------------------------- *)
(** ** [main]: when a report is built *)

Lemma load_data_total fs file_path file_type :
  raises (load_data fs file_path file_type) = false.
Proof. apply try_except_total. Qed.

Lemma preprocess_data_wf (df dfp : DataFrame) :
  wf df -> preprocess_data (Some df) = Return (Some dfp) -> wf dfp.
Proof.
  intros Hwf H. destruct (@preprocess_data_eq df dfp H) as [c0 [Hc ->]].
  apply wf_setitem; [now apply wf_df_fillna|].
  rewrite length_rolling_mean. unfold series_fillna. rewrite length_map.
  cbn [df_fillna nrows]. exact (wf_column_length _ Hwf Hc).
Qed.

(** With a [Close] column the feature stage succeeds, and its result has
    both columns the backtest reads. *)
Lemma preprocess_data_succeeds (df : DataFrame) (close0 : series) :
  dict_get (columns df) "Close" = Some close0 ->
  exists dfp ma,
    preprocess_data (Some df) = Return (Some dfp) /\
    nrows dfp = nrows df /\
    dict_get (columns dfp) "MA_5" = Some ma /\
    dict_get (columns dfp) "Close" =
      Some (series_fillna close0 (series_mean close0)).
Proof.
  intros Hc. unfold preprocess_data, getitem.
  rewrite df_fillna_mean_get, Hc. cbn [option_map bind try_except].
  eexists. eexists. split; [reflexivity|].
  cbn [setitem columns nrows df_fillna]. split; [reflexivity|].
  rewrite !dict_get_set. cbn [String.eqb Ascii.eqb Bool.eqb].
  split; [reflexivity|].
  change (map _ (columns df)) with (columns (df_fillna df (df_mean df))).
  now rewrite df_fillna_mean_get, Hc.
Qed.

(** X8.  [main] never raises, and it builds a report exactly when loading,
    preprocessing and the backtest each return a value: the R and MATLAB
    adapters have no say in whether there is a report. *)
Theorem main_report_iff (qsqrt : Q -> Q) (qpow : Q -> Q -> Q)
    (fs : FileSystem) (r : REngine) (eng : MatlabEngine)
    (data_file r_script matlab_script file_type : string) (live : sessions) :
  raises (fst (main qsqrt qpow fs r eng data_file r_script matlab_script
                 file_type live)) = false /\
  ((exists report,
      fst (main qsqrt qpow fs r eng data_file r_script matlab_script
             file_type live) = Return (Some report)) <->
   (exists df dfp m,
      load_data fs data_file file_type = Return (Some df) /\
      preprocess_data (Some df) = Return (Some dfp) /\
      fst (run_backtest qsqrt qpow dfp) = Return (Some m))).
Proof.
  pose proof (load_data_total fs data_file file_type) as Hl.
  unfold main, sbind, slift, sret.
  destruct (load_data fs data_file file_type) as [[df|]|e];
    [| |discriminate Hl].
  2:{ cbn [fst raises]. split; [reflexivity|].
      split; [intros [x H]; discriminate H|].
      intros [df [dfp [m [H _]]]]. discriminate H. }
  pose proof (preprocess_data_total (Some df)) as Hp.
  destruct (preprocess_data (Some df)) as [[dfp|]|e] eqn:Ep;
    [| |discriminate Hp].
  2:{ cbn [fst raises]. split; [reflexivity|].
      split; [intros [x H]; discriminate H|].
      intros [df' [dfp [m [[= <-] [H _]]]]]. congruence. }
  pose proof (run_r_analysis_total r (Some dfp) r_script) as Hr.
  destruct (run_r_analysis r (Some dfp) r_script) as [rr|e];
    [|discriminate Hr].
  pose proof (run_matlab_simulation_total eng (Some dfp) matlab_script live)
    as Hm.
  destruct (run_matlab_simulation eng (Some dfp) matlab_script live)
    as [[mr|e] live']; [|discriminate Hm].
  pose proof (run_backtest_total qsqrt qpow dfp) as Hb.
  destruct (fst (run_backtest qsqrt qpow dfp)) as [[m|]|e] eqn:Eb;
    [| |discriminate Hb]; cbn [fst raises].
  - split; [reflexivity|]. split.
    + intros _. exists df, dfp, m. now repeat split.
    + intros _. eexists. reflexivity.
  - split; [reflexivity|].
    split; [intros [x H]; discriminate H|].
    intros [df' [dfp' [m [[= <-] [H1 H2]]]]].
    rewrite Ep in H1. injection H1 as <-. congruence.
Qed.

(** X9.  When the file cannot be loaded, or the loaded frame cannot be
    preprocessed, [main] stops before either adapter is called: it returns
    no report and the MATLAB session count is untouched. *)
Theorem main_aborts_before_engines (qsqrt : Q -> Q) (qpow : Q -> Q -> Q)
    (fs : FileSystem) (r : REngine) (eng : MatlabEngine)
    (data_file r_script matlab_script file_type : string) (live : sessions) :
  load_data fs data_file file_type = Return None \/
  (exists df, load_data fs data_file file_type = Return (Some df) /\
              preprocess_data (Some df) = Return None) ->
  main qsqrt qpow fs r eng data_file r_script matlab_script file_type live =
  (Return None, live).
Proof.
  unfold main, sbind, slift, sret.
  intros [H|[df [H1 H2]]].
  - now rewrite H.
  - now rewrite H1, H2.
Qed.

(** [main_aborts_before_engines] with a missing data file and a working
    MATLAB engine. *)
Lemma main_aborts_before_engines_witness :
  main qsqrt_heron qpow_interp fs_missing r_working matlab_working
    "data.csv" "analysis.R" "simulation.m" "csv" 0%nat =
  (Return None, 0%nat).
Proof.
  apply (@main_aborts_before_engines qsqrt_heron qpow_interp fs_missing
           r_working matlab_working "data.csv" "analysis.R" "simulation.m"
           "csv" 0%nat).
  left. reflexivity.
Defined.

(** X10.  If the loaded frame is well-formed, all its columns are numeric
    (as every frame of this model is), it has a [Close] column and at least
    one row, then [main] builds a report, whatever the two engines do: the
    feature stage succeeds and the backtest cannot fail on its result. *)
Theorem main_reports_on_loaded_prices (qsqrt : Q -> Q) (qpow : Q -> Q -> Q)
    (fs : FileSystem) (r : REngine) (eng : MatlabEngine)
    (data_file r_script matlab_script file_type : string) (live : sessions)
    (df : DataFrame) (close0 : series) :
  load_data fs data_file file_type = Return (Some df) ->
  wf df ->
  dict_get (columns df) "Close" = Some close0 ->
  nrows df <> 0%nat ->
  exists report,
    fst (main qsqrt qpow fs r eng data_file r_script matlab_script file_type
           live) = Return (Some report) /\
    dict_keys report = ["r_results"; "matlab_results"; "backtest_results"]%string.
Proof.
  intros Hload Hwf Hc Hn.
  destruct (preprocess_data_succeeds df Hc) as [dfp [ma [Hp [Hrows [Hma Hcl]]]]].
  pose proof (preprocess_data_wf Hwf Hp) as Hwfp.
  assert (Hn' : nrows dfp <> 0%nat) by congruence.
  destruct (run_backtest_returns qsqrt qpow Hwfp Hma Hcl Hn') as [m [Hm _]].
  eexists. split.
  - exact (main_builds_report qsqrt qpow fs r eng data_file r_script
             matlab_script file_type live Hload Hp Hm).
  - reflexivity.
Qed.

(** [main_reports_on_loaded_prices] on the scenario file with no R script
    and no MATLAB. *)
Lemma main_reports_on_loaded_prices_witness :
  exists report,
    fst (main qsqrt_heron qpow_interp fs_scenario r_script_missing
           matlab_absent "data.csv" "analysis.R" "simulation.m" "csv" 0%nat) =
    Return (Some report) /\
    dict_keys report = ["r_results"; "matlab_results"; "backtest_results"]%string.
Proof.
  apply (@main_reports_on_loaded_prices qsqrt_heron qpow_interp fs_scenario
           r_script_missing matlab_absent "data.csv" "analysis.R"
           "simulation.m" "csv" 0%nat scenario_raw scenario_close).
  - reflexivity.
  - split.
    + repeat constructor.
    + cbn. repeat constructor. cbn. intuition.
  - reflexivity.
  - discriminate.
Defined.

(* ------------------------------------------------------------------------- *)
(** ** The columns [run_backtest] derives *)

Lemma nth_error_removelast (s : series) i :
  (S i < List.length s)%nat -> nth_error (removelast s) i = nth_error s i.
Proof.
  revert i. induction s as [|x s IH]; intros i Hi; cbn [List.length] in Hi;
    [lia|].
  destruct s as [|y s]; [cbn [List.length] in Hi; lia|].
  change (removelast (x :: y :: s)) with (x :: removelast (y :: s)).
  destruct i as [|i]; [reflexivity|].
  cbn [nth_error]. apply IH. cbn [List.length] in *. lia.
Qed.

Lemma nth_error_shift1_S (s : series) i :
  (S i < List.length s)%nat -> nth_error (shift1 s) (S i) = nth_error s i.
Proof.
  intros Hi. destruct s as [|x s]; [cbn in Hi; lia|].
  unfold shift1. cbn [nth_error]. now apply nth_error_removelast.
Qed.

Lemma nth_error_shift1_0 (s : series) :
  s <> [] -> nth_error (shift1 s) 0 = Some NaN.
Proof. destruct s; [congruence | reflexivity]. Qed.

Lemma nth_error_combine A B (a : list A) (b : list B) i x y :
  nth_error a i = Some x -> nth_error b i = Some y ->
  nth_error (combine a b) i = Some (x, y).
Proof.
  revert b i. induction a as [|x0 a IH]; intros [|y0 b] [|i] Ha Hb;
    cbn [nth_error combine] in *; try discriminate.
  - congruence.
  - now apply IH.
Qed.

Lemma ffill_from_notna last (s : series) :
  forallb (fun x => negb (isnan x)) s = true -> ffill_from last s = s.
Proof.
  revert last. induction s as [|x s IH]; intros last H; [reflexivity|].
  cbn [forallb] in H. apply andb_prop in H. destruct H as [Hx Hs].
  cbn [ffill_from]. apply negb_true_iff in Hx. rewrite Hx.
  now rewrite IH.
Qed.

Lemma frame_after_columns df ma close :
  dict_get (columns (frame_after df ma close)) "Position" =
    Some (where_gt ma close) /\
  dict_get (columns (frame_after df ma close)) "Lagged_Position" =
    Some (shift1 (where_gt ma close)) /\
  dict_get (columns (frame_after df ma close)) "Returns" =
    Some (pct_change close) /\
  dict_get (columns (frame_after df ma close)) "Strategy_Returns" =
    Some (strategy_returns_of ma close).
Proof.
  unfold frame_after. cbn [setitem columns].
  repeat split; now rewrite !dict_get_set.
Qed.

(** X11.  The position that earns the return of a row is the previous
    row's: after [run_backtest], [Lagged_Position] has one entry per entry
    of [Position], its row 0 is NaN, and its row [i+1] is row [i] of
    [Position]; no row is paired with its own position. *)
Theorem lagged_position_rule (qsqrt : Q -> Q) (qpow : Q -> Q -> Q)
    (df : DataFrame) (ma close : series) :
  dict_get (columns df) "MA_5" = Some ma ->
  dict_get (columns df) "Close" = Some close ->
  exists position lagged,
    dict_get (columns (snd (run_backtest qsqrt qpow df))) "Position" =
      Some position /\
    dict_get (columns (snd (run_backtest qsqrt qpow df))) "Lagged_Position" =
      Some lagged /\
    List.length lagged = List.length position /\
    (position <> [] -> nth_error lagged 0 = Some NaN) /\
    (forall i, (S i < List.length position)%nat ->
               nth_error lagged (S i) = nth_error position i).
Proof.
  intros Hm Hc. rewrite (run_backtest_eq qsqrt qpow df Hm Hc). cbn [snd].
  destruct (frame_after_columns df ma close) as [Hp [Hl _]].
  exists (where_gt ma close), (shift1 (where_gt ma close)).
  repeat split; try assumption.
  - apply length_shift1.
  - apply nth_error_shift1_0.
  - intros i Hi. now apply nth_error_shift1_S.
Qed.

(** [lagged_position_rule] on the scenario. *)
Lemma lagged_position_rule_witness :
  exists position lagged,
    dict_get
      (columns (snd (run_backtest qsqrt_heron qpow_interp scenario_processed)))
      "Position" = Some position /\
    dict_get
      (columns (snd (run_backtest qsqrt_heron qpow_interp scenario_processed)))
      "Lagged_Position" = Some lagged /\
    List.length lagged = List.length position /\
    (position <> [] -> nth_error lagged 0 = Some NaN) /\
    (forall i, (S i < List.length position)%nat ->
               nth_error lagged (S i) = nth_error position i).
Proof.
  apply (@lagged_position_rule qsqrt_heron qpow_interp scenario_processed
           [NaN; NaN; NaN; NaN; Num 103; Num (521 # 5); Num (529 # 5)]
           scenario_close).
  - reflexivity.
  - reflexivity.
Defined.

(** X12.  On a [Close] column without NaN, [Returns] has one entry per row:
    NaN at row 0 and [Close[i+1] / Close[i] - 1] at row [i+1]. *)
Theorem period_return_rule (qsqrt : Q -> Q) (qpow : Q -> Q -> Q)
    (df : DataFrame) (ma close : series) :
  dict_get (columns df) "MA_5" = Some ma ->
  dict_get (columns df) "Close" = Some close ->
  forallb (fun x => negb (isnan x)) close = true ->
  exists returns,
    dict_get (columns (snd (run_backtest qsqrt qpow df))) "Returns" =
      Some returns /\
    List.length returns = List.length close /\
    (close <> [] -> nth_error returns 0 = Some NaN) /\
    (forall i x y,
       nth_error close i = Some x -> nth_error close (S i) = Some y ->
       nth_error returns (S i) = Some (fsub (fdiv y x) one)).
Proof.
  intros Hm Hc Hna. rewrite (run_backtest_eq qsqrt qpow df Hm Hc). cbn [snd].
  destruct (frame_after_columns df ma close) as [_ [_ [Hr _]]].
  exists (pct_change close). split; [exact Hr|].
  split; [apply length_pct_change|].
  unfold pct_change, ffill, series_sub_scalar, series_div.
  rewrite (ffill_from_notna NaN close Hna). split.
  - intros Hne. destruct close as [|c0 cs]; [congruence|].
    cbn [shift1 combine map nth_error fst snd]. now destruct c0.
  - intros i x y Hx Hy.
    assert (Hi : (S i < List.length close)%nat).
    { apply nth_error_Some. congruence. }
    rewrite !nth_error_map.
    rewrite (@nth_error_combine _ _ close (shift1 close) (S i) y x Hy);
      [reflexivity|].
    now rewrite nth_error_shift1_S.
Qed.

(** [period_return_rule] on the scenario. *)
Lemma period_return_rule_witness :
  exists returns,
    dict_get
      (columns (snd (run_backtest qsqrt_heron qpow_interp scenario_processed)))
      "Returns" = Some returns /\
    List.length returns = List.length scenario_close /\
    (scenario_close <> [] -> nth_error returns 0 = Some NaN) /\
    (forall i x y,
       nth_error scenario_close i = Some x ->
       nth_error scenario_close (S i) = Some y ->
       nth_error returns (S i) = Some (fsub (fdiv y x) one)).
Proof.
  apply (@period_return_rule qsqrt_heron qpow_interp scenario_processed
           [NaN; NaN; NaN; NaN; Num 103; Num (521 # 5); Num (529 # 5)]
           scenario_close).
  - reflexivity.
  - reflexivity.
  - reflexivity.
Defined.

Lemma strategy_returns_row0 (ma close : series) :
  strategy_returns_of ma close <> [] ->
  nth_error (strategy_returns_of ma close) 0 = Some NaN.
Proof.
  unfold strategy_returns_of, series_mul.
  destruct (shift1 (where_gt ma close)) as [|l0 ls] eqn:El;
    [cbn; congruence|].
  assert (Hl0 : l0 = NaN).
  { destruct (where_gt ma close); [discriminate|].
    unfold shift1 in El. now injection El as <- _. }
  subst l0. destruct (pct_change close) as [|r0 rs]; [cbn; congruence|].
  intros _. cbn [combine map nth_error fst snd]. reflexivity.
Qed.

Lemma cumulative_of_row0 (s : series) :
  nth_error s 0 = Some NaN -> nth_error (cumulative_of s) 0 = Some NaN.
Proof. destruct s as [|x s]; [discriminate|]. now intros [= ->]. Qed.

(** X13.  The dict of a successful [run_backtest] on a well-formed frame
    holds a cumulative-return list with one entry per row of the frame; its
    row 0 is always NaN (no position precedes the first row) and
    [total_return] is its last entry. *)
Theorem cumulative_returns_shape (qsqrt : Q -> Q) (qpow : Q -> Q -> Q)
    (df : DataFrame) (m : dict pyval) :
  wf df ->
  fst (run_backtest qsqrt qpow df) = Return (Some m) ->
  exists cum,
    dict_get m "cumulative_returns" = Some (PyList cum) /\
    List.length cum = nrows df /\
    nth_error cum 0 = Some NaN /\
    float_at m "total_return" = Some (last cum NaN).
Proof.
  intros Hwf.
  destruct (dict_get (columns df) "MA_5") as [ma|] eqn:Hm.
  2:{ now rewrite run_backtest_no_ma. }
  destruct (dict_get (columns df) "Close") as [close|] eqn:Hc.
  2:{ now rewrite (run_backtest_no_close _ _ _ Hm Hc). }
  rewrite (run_backtest_eq _ _ _ Hm Hc). cbn [fst]. unfold metrics_of.
  pose proof (length_strategy_returns_of ma close) as Hlen.
  rewrite (wf_column_length _ Hwf Hm), (wf_column_length _ Hwf Hc),
    Nat.min_id in Hlen.
  pose proof (length_cumulative_of (strategy_returns_of ma close)) as Hcum.
  rewrite Hlen in Hcum.
  destruct (cumulative_of (strategy_returns_of ma close)) as [|c cs] eqn:Ec;
    cbn [iloc_last bind try_except]; [discriminate|].
  destruct (int_truediv 252 (nrows df)) as [x|e]; cbn [bind try_except];
    [|discriminate].
  intros [= <-]. exists (c :: cs). repeat split.
  - exact Hcum.
  - rewrite <- Ec. apply cumulative_of_row0, strategy_returns_row0.
    intros E. rewrite E in Ec. discriminate Ec.
Qed.

(** [cumulative_returns_shape] on the scenario. *)
Lemma cumulative_returns_shape_witness :
  exists cum,
    dict_get
      (match fst (run_backtest qsqrt_heron qpow_interp scenario_processed) with
       | Return (Some m) => m
       | _ => []
       end) "cumulative_returns" = Some (PyList cum) /\
    List.length cum = nrows scenario_processed /\
    nth_error cum 0 = Some NaN /\
    float_at
      (match fst (run_backtest qsqrt_heron qpow_interp scenario_processed) with
       | Return (Some m) => m
       | _ => []
       end) "total_return" = Some (last cum NaN).
Proof.
  apply (@cumulative_returns_shape qsqrt_heron qpow_interp scenario_processed).
  - split.
    + repeat constructor.
    + cbn. repeat constructor; cbn; intuition discriminate.
  - apply returned_metrics.
    destruct (run_backtest_returns qsqrt_heron qpow_interp
                scenario_processed_wf
                (ma := [NaN; NaN; NaN; NaN; Num 103; Num (521 # 5); Num (529 # 5)])
                (close := scenario_close) eq_refl eq_refl)
      as [m [Hm _]]; [discriminate|].
    now exists m.
Defined.

(* ------------------------------------------------------------------------- *)
(** ** The moving average of five numbers *)

Lemma skipn_nth_error (s : series) i x :
  nth_error s i = Some x -> skipn i s = x :: skipn (S i) s.
Proof.
  revert i. induction s as [|y s IH]; intros [|i] H; cbn [nth_error] in H;
    try discriminate.
  - now injection H as ->.
  - cbn [skipn]. now apply IH.
Qed.

(** X14.  When the input [Close] column has no NaN, [preprocess_data] leaves
    it as it is, and wherever five consecutive cells [a, b, c, d, e] of
    [Close] are finite numbers, [MA_5] at the row of [e] is the number
    [(a + b + c + d + e) / 5]. *)
Theorem moving_average_of_numbers (df dfp : DataFrame) (close0 : series) :
  preprocess_data (Some df) = Return (Some dfp) ->
  dict_get (columns df) "Close" = Some close0 ->
  forallb (fun x => negb (isnan x)) close0 = true ->
  dict_get (columns dfp) "Close" = Some close0 /\
  exists ma,
    dict_get (columns dfp) "MA_5" = Some ma /\
    forall i a b c d e,
      nth_error close0 i = Some (Num a) ->
      nth_error close0 (i + 1) = Some (Num b) ->
      nth_error close0 (i + 2) = Some (Num c) ->
      nth_error close0 (i + 3) = Some (Num d) ->
      nth_error close0 (i + 4) = Some (Num e) ->
      exists q, nth_error ma (i + 4) = Some (Num q) /\
                q == (a + b + c + d + e) / 5.
Proof.
  intros H Hc Hna.
  destruct (@preprocess_data_eq df dfp H) as [c0 [Hc0 ->]].
  rewrite Hc in Hc0. injection Hc0 as <-.
  rewrite (series_fillna_notna close0 (series_mean close0) Hna).
  cbn [setitem columns df_fillna]. split.
  - rewrite dict_get_set. cbn [String.eqb Ascii.eqb Bool.eqb].
    change (map _ (columns df)) with (columns (df_fillna df (df_mean df))).
    rewrite df_fillna_mean_get, Hc. cbn [option_map].
    now rewrite (series_fillna_notna close0 (series_mean close0) Hna).
  - exists (rolling_mean 5 close0). split.
    + rewrite dict_get_set. now rewrite String.eqb_refl.
    + intros i a b c d e Ha Hb Hc' Hd He.
      assert (Hi : (i + 4 < List.length close0)%nat).
      { apply nth_error_Some. congruence. }
      rewrite rolling_mean_window by lia.
      unfold window. replace (i + 4 + 1 - 5)%nat with i by lia.
      rewrite (skipn_nth_error close0 i Ha).
      replace (S i) with (i + 1)%nat by lia.
      rewrite (skipn_nth_error close0 (i + 1) Hb).
      replace (S (i + 1)) with (i + 2)%nat by lia.
      rewrite (skipn_nth_error close0 (i + 2) Hc').
      replace (S (i + 2)) with (i + 3)%nat by lia.
      rewrite (skipn_nth_error close0 (i + 3) Hd).
      replace (S (i + 3)) with (i + 4)%nat by lia.
      rewrite (skipn_nth_error close0 (i + 4) He).
      cbn [firstn]. unfold window_mean, fsum, zero, of_nat.
      cbn [forallb isfinite andb fold_left fadd List.length fdiv].
      change (Qeq_bool (inject_Z (Z.of_nat 5)) 0) with false.
      eexists. split; [reflexivity|].
      rewrite !Qred_correct. change (inject_Z (Z.of_nat 5)) with 5.
      field.
Qed.

(** [moving_average_of_numbers] on the scenario. *)
Lemma moving_average_of_numbers_witness :
  dict_get (columns scenario_processed) "Close" = Some scenario_close /\
  exists ma,
    dict_get (columns scenario_processed) "MA_5" = Some ma /\
    forall i a b c d e,
      nth_error scenario_close i = Some (Num a) ->
      nth_error scenario_close (i + 1) = Some (Num b) ->
      nth_error scenario_close (i + 2) = Some (Num c) ->
      nth_error scenario_close (i + 3) = Some (Num d) ->
      nth_error scenario_close (i + 4) = Some (Num e) ->
      exists q, nth_error ma (i + 4) = Some (Num q) /\
                q == (a + b + c + d + e) / 5.
Proof.
  apply (@moving_average_of_numbers scenario_raw scenario_processed
           scenario_close).
  - reflexivity.
  - reflexivity.
  - reflexivity.
Defined.

(* ------------------------------------------------------------------------- *)
(** ** A flat price *)

Lemma removelast_repeat (x : fval) k :
  removelast (repeat x (S k)) = repeat x k.
Proof.
  induction k as [|k IH]; [reflexivity|].
  change (repeat x (S (S k))) with (x :: repeat x (S k)).
  change (removelast (x :: repeat x (S k)))
    with (match repeat x (S k) with
          | [] => []
          | _ :: _ => x :: removelast (repeat x (S k))
          end).
  cbn [repeat]. fold (repeat x k). cbn [repeat] in IH. now rewrite IH.
Qed.

Lemma forallb_repeat (f : fval -> bool) x k :
  f x = true -> forallb f (repeat x k) = true.
Proof. intros H. induction k; cbn [repeat forallb]; [|rewrite H]; auto. Qed.

Lemma Qred_zero (q : Q) : q == 0 -> Qred q = 0.
Proof. intros H. now rewrite (Qred_complete _ _ H). Qed.

(** A non-zero price divided by itself, minus one. *)
Lemma flat_return (c : Q) :
  ~ c == 0 -> fsub (fdiv (Num c) (Num c)) one = Num 0.
Proof.
  intros Hc. unfold fdiv.
  destruct (Qeq_bool c 0) eqn:E; [apply Qeq_bool_iff in E; contradiction|].
  assert (H1 : Qred (c / c) = 1).
  { rewrite (Qred_complete (c / c) 1); [reflexivity|]. now field. }
  rewrite H1. reflexivity.
Qed.

Lemma pct_change_flat (c : Q) k :
  ~ c == 0 ->
  pct_change (repeat (Num c) (S k)) = NaN :: repeat (Num 0) k.
Proof.
  intros Hc. unfold pct_change, ffill.
  rewrite ffill_from_notna by now apply forallb_repeat.
  unfold shift1. change (repeat (Num c) (S k)) with (Num c :: repeat (Num c) k)
    at 1 2.
  rewrite removelast_repeat.
  unfold series_sub_scalar, series_div.
  cbn [combine map fst snd fdiv fsub one]. f_equal.
  induction k as [|k IH]; [reflexivity|].
  cbn [repeat combine map fst snd]. rewrite IH. f_equal.
  now apply flat_return.
Qed.

(** Every entry of [Position] is [1] or [-1]. *)
Lemma where_gt_signs (a b : series) :
  Forall (fun p => p = Num 1 \/ p = Num (-1)) (where_gt a b).
Proof.
  unfold where_gt. rewrite Forall_map. apply Forall_forall.
  intros [x y] _. cbn [fst snd]. destruct (fgtb x y); auto.
Qed.

Lemma Forall_removelast A (P : A -> Prop) (l : list A) :
  Forall P l -> Forall P (removelast l).
Proof.
  induction 1 as [|x l Hx Hl IH]; [constructor|].
  destruct l as [|y l]; [constructor|].
  change (removelast (x :: y :: l)) with (x :: removelast (y :: l)).
  now constructor.
Qed.

Lemma series_mul_zero (l : series) k :
  Forall (fun p => p = Num 1 \/ p = Num (-1)) l ->
  series_mul l (repeat (Num 0) k) =
  repeat (Num 0) (Nat.min (List.length l) k).
Proof.
  unfold series_mul. intros H. revert k.
  induction H as [|p l Hp Hl IH]; intros k; [reflexivity|].
  destruct k as [|k]; [reflexivity|].
  cbn [repeat combine map fst snd List.length Nat.min]. rewrite IH.
  f_equal. destruct Hp as [-> | ->]; reflexivity.
Qed.

Lemma strategy_returns_flat (ma : series) (c : Q) k :
  ~ c == 0 -> List.length ma = S k ->
  strategy_returns_of ma (repeat (Num c) (S k)) = NaN :: repeat (Num 0) k.
Proof.
  intros Hc Hlen. unfold strategy_returns_of.
  rewrite (pct_change_flat k Hc).
  pose proof (where_gt_signs ma (repeat (Num c) (S k))) as Hs.
  pose proof (length_where_gt ma (repeat (Num c) (S k))) as Hl.
  rewrite repeat_length, Hlen, Nat.min_id in Hl.
  destruct (where_gt ma (repeat (Num c) (S k))) as [|p ps] eqn:E;
    [discriminate Hl|].
  unfold shift1. unfold series_mul. cbn [combine map fst snd fmul].
  fold (series_mul (removelast (p :: ps)) (repeat (Num 0) k)).
  rewrite series_mul_zero by now apply Forall_removelast.
  rewrite length_removelast, Hl. cbn [pred]. now rewrite Nat.min_id.
Qed.

Lemma cumprod_ones k :
  cumprod_from (Num 1) (repeat (Num 1) k) = repeat (Num 1) k.
Proof. induction k as [|k IH]; [reflexivity|]. cbn. now rewrite IH. Qed.

Lemma cumulative_of_flat k :
  cumulative_of (NaN :: repeat (Num 0) k) = NaN :: repeat (Num 0) k.
Proof.
  unfold cumulative_of, series_add_scalar, series_sub_scalar, cumprod.
  cbn [map fadd one cumprod_from isnan fsub]. f_equal.
  rewrite map_repeat.
  change (fadd (Num 0) (Num 1)) with (Num 1).
  rewrite cumprod_ones, map_repeat. reflexivity.
Qed.

Lemma last_flat k :
  last (NaN :: repeat (Num 0) (S k)) NaN = Num 0.
Proof.
  induction k as [|k IH]; [reflexivity|].
  change (last (NaN :: Num 0 :: repeat (Num 0) (S k)) NaN)
    with (last (Num 0 :: repeat (Num 0) (S k)) NaN).
  change (last (NaN :: Num 0 :: repeat (Num 0) k) NaN)
    with (last (Num 0 :: repeat (Num 0) k) NaN) in IH.
  cbn [repeat]. cbn [repeat] in IH.
  exact IH.
Qed.

Lemma fsum_zeros k : fold_left fadd (repeat (Num 0) k) (Num 0) = Num 0.
Proof. induction k as [|k IH]; [reflexivity|]. cbn. exact IH. Qed.

Lemma fdiv_zero_nat k : fdiv (Num 0) (of_nat (S k)) = Num 0.
Proof.
  unfold fdiv, of_nat.
  destruct (Qeq_bool (inject_Z (Z.of_nat (S k))) 0) eqn:E.
  - apply Qeq_bool_iff in E. unfold Qeq in E. cbn in E. lia.
  - f_equal; try (apply Qred_zero; unfold Qdiv; ring).
Qed.

(** Two or more zero returns have variance 0. *)
Lemma series_var_flat k :
  series_var (NaN :: repeat (Num 0) (S (S k))) = Num 0.
Proof.
  unfold series_var, notna. cbn [filter isnan negb].
  assert (Hf : filter (fun x => negb (isnan x)) (repeat (Num 0) (S (S k))) =
               repeat (Num 0) (S (S k))).
  { apply forallb_filter_id. now apply forallb_repeat. }
  rewrite Hf, repeat_length. cbn [Nat.leb].
  unfold fsum, zero. rewrite fsum_zeros, fdiv_zero_nat.
  rewrite map_repeat. change (fmul (fsub (Num 0) (Num 0)) (fsub (Num 0) (Num 0)))
    with (Num 0).
  rewrite fsum_zeros.
  replace (S (S k) - 1)%nat with (S k) by lia.
  apply fdiv_zero_nat.
Qed.

Lemma series_var_short :
  series_var [NaN] = NaN /\ series_var [NaN; Num 0] = NaN.
Proof. split; reflexivity. Qed.

(** X15.  On a well-formed frame whose [Close] is one non-zero price on
    every row, whatever [MA_5] holds: every strategy return after row 0 is
    0, the total return is 0 once there are two rows, the annualized
    volatility is 0 once there are three, and the Sharpe ratio is 0 in all
    cases (given that the square root of 0 is 0). *)
Theorem flat_price_metrics (qsqrt : Q -> Q) (qpow : Q -> Q -> Q)
    (df : DataFrame) (ma : series) (c : Q) (m : dict pyval) :
  wf df ->
  qsqrt 0 == 0 ->
  ~ c == 0 ->
  dict_get (columns df) "MA_5" = Some ma ->
  dict_get (columns df) "Close" = Some (repeat (Num c) (nrows df)) ->
  fst (run_backtest qsqrt qpow df) = Return (Some m) ->
  dict_get (columns (snd (run_backtest qsqrt qpow df))) "Strategy_Returns" =
    Some (NaN :: repeat (Num 0) (nrows df - 1)) /\
  ((2 <= nrows df)%nat -> float_at m "total_return" = Some (Num 0)) /\
  ((3 <= nrows df)%nat -> float_at m "annualized_volatility" = Some (Num 0)) /\
  float_at m "sharpe_ratio" = Some (Num 0).
Proof.
  intros Hwf Hq Hc Hm Hcl.
  rewrite (run_backtest_eq qsqrt qpow df Hm Hcl). cbn [fst snd].
  destruct (frame_after_columns df ma (repeat (Num c) (nrows df)))
    as [_ [_ [_ Hsr]]].
  rewrite Hsr. clear Hsr.
  pose proof (wf_column_length _ Hwf Hm) as Hlen.
  unfold metrics_of.
  destruct (nrows df) as [|k] eqn:En.
  { destruct ma; [|discriminate Hlen]. cbn. discriminate. }
  rewrite (@strategy_returns_flat ma c k Hc Hlen), cumulative_of_flat.
  cbn [iloc_last int_truediv bind try_except].
  replace (S k - 1)%nat with k by lia.
  intros [= <-]. unfold float_at. cbn [dict_get String.eqb Ascii.eqb Bool.eqb].
  split; [reflexivity|].
  assert (Hvol : (2 <= k)%nat ->
                 volatility_of qsqrt (NaN :: repeat (Num 0) k) = Num 0).
  { intros Hk. destruct k as [|[|k]]; try lia.
    unfold volatility_of, series_std. rewrite series_var_flat.
    cbn [np_sqrt Qle_bool]. change (Qle_bool 0 0) with true.
    change (Qle_bool 0 252) with true. cbn [fmul]. f_equal.
    apply Qred_zero. rewrite Hq. ring. }
  split; [|split].
  - intros Hk. destruct k as [|k]; [lia|]. f_equal. exact (last_flat k).
  - intros Hk. f_equal. apply Hvol. lia.
  - f_equal. unfold sharpe_of.
    destruct k as [|[|k]].
    + reflexivity.
    + reflexivity.
    + rewrite Hvol by lia. reflexivity.
Qed.

(** [flat_price_metrics] on four rows at a price of 50. *)
Lemma flat_price_metrics_witness :
  dict_get
    (columns (snd (run_backtest qsqrt_heron qpow_interp flat_frame)))
    "Strategy_Returns" =
    Some (NaN :: repeat (Num 0) (nrows flat_frame - 1)) /\
  ((2 <= nrows flat_frame)%nat ->
   float_at
     (match fst (run_backtest qsqrt_heron qpow_interp flat_frame) with
      | Return (Some m) => m
      | _ => []
      end) "total_return" = Some (Num 0)) /\
  ((3 <= nrows flat_frame)%nat ->
   float_at
     (match fst (run_backtest qsqrt_heron qpow_interp flat_frame) with
      | Return (Some m) => m
      | _ => []
      end) "annualized_volatility" = Some (Num 0)) /\
  float_at
    (match fst (run_backtest qsqrt_heron qpow_interp flat_frame) with
     | Return (Some m) => m
     | _ => []
     end) "sharpe_ratio" = Some (Num 0).
Proof.
  assert (Hwf : wf flat_frame).
  { split.
    - repeat constructor.
    - cbn. repeat constructor; cbn; intuition discriminate. }
  apply (@flat_price_metrics qsqrt_heron qpow_interp flat_frame
           [NaN; Num 60; Num 40; NaN] 50).
  - exact Hwf.
  - reflexivity.
  - intros H. discriminate H.
  - reflexivity.
  - reflexivity.
  - apply returned_metrics.
    destruct (run_backtest_returns qsqrt_heron qpow_interp Hwf
                (ma := [NaN; Num 60; Num 40; NaN])
                (close := [Num 50; Num 50; Num 50; Num 50]) eq_refl eq_refl)
      as [m [Hm _]]; [discriminate|].
    now exists m.
Defined.

(* ------------------------------------------------------------------------- *)
(** ** Failure paths of [run_backtest] and of the MATLAB adapter *)

(** X16.  A missing column stops [run_backtest] before its first
    assignment: it returns [None] and the frame is exactly as it was.  An
    empty frame with both columns fails later, at [iloc[-1]]: it returns
    [None] too, but the four derived columns have already been assigned. *)
Theorem run_backtest_failure_effect (qsqrt : Q -> Q) (qpow : Q -> Q -> Q)
    (df : DataFrame) :
  (dict_get (columns df) "MA_5" = None \/
   dict_get (columns df) "Close" = None ->
   run_backtest qsqrt qpow df = (Return None, df)) /\
  (forall ma close,
     wf df -> nrows df = 0%nat ->
     dict_get (columns df) "MA_5" = Some ma ->
     dict_get (columns df) "Close" = Some close ->
     fst (run_backtest qsqrt qpow df) = Return None /\
     forall k, In k assigned_columns ->
               dict_get (columns (snd (run_backtest qsqrt qpow df))) k =
               Some []).
Proof.
  split.
  - intros [H|H].
    + now apply run_backtest_no_ma.
    + destruct (dict_get (columns df) "MA_5") as [ma|] eqn:Hm.
      * now apply (run_backtest_no_close qsqrt qpow df Hm).
      * now apply run_backtest_no_ma.
  - intros ma close Hwf Hn Hm Hc.
    rewrite (run_backtest_eq qsqrt qpow df Hm Hc). cbn [fst snd].
    pose proof (wf_column_length _ Hwf Hm) as Hlm.
    pose proof (wf_column_length _ Hwf Hc) as Hlc.
    rewrite Hn in Hlm, Hlc.
    destruct ma; [|discriminate Hlm]. destruct close; [|discriminate Hlc].
    split; [reflexivity|].
    intros k Hk. unfold frame_after. cbn [setitem columns].
    rewrite !dict_get_set.
    cbn in Hk. decompose [or] Hk; subst; try tauto; reflexivity.
Qed.

(** X17.  [run_matlab_simulation] returns a result exactly when the engine
    starts, the frame has a column, [eng.struct] accepts the padded dict,
    [eng.eval] of [run('<script>')] returns that result and [eng.quit()]
    returns as well; a [quit] that raises after a successful [eval] loses
    the result. *)
Theorem run_matlab_simulation_result (eng : MatlabEngine) (df : DataFrame)
    (path : string) (live : sessions) (v : pyval) :
  fst (run_matlab_simulation eng (Some df) path live) = Return (Some v) <->
  exists max_len h,
    eng_start eng = Return tt /\
    py_max (map (fun kv => List.length (snd kv)) (to_dict_list df)) =
      Return max_len /\
    eng_struct eng (pad_columns (to_dict_list df) max_len) = Return h /\
    eng_eval eng ("run('" ++ path ++ "')") = Return (Some v) /\
    eng_quit eng = Return tt.
Proof.
  unfold run_matlab_simulation, stry, sbind, start_matlab, quit, slift, sret.
  split.
  - destruct (eng_start eng) as [[]|e0]; [|discriminate].
    destruct (py_max _) as [mx|e1]; [|discriminate].
    destruct (eng_struct eng _) as [h|e2] eqn:Es.
    + destruct (eng_eval eng _) as [res|e3]; [|discriminate].
      destruct (eng_quit eng) as [[]|e4]; cbn [fst]; [|discriminate].
      intros [= ->]. exists mx, h. now repeat split.
    + destruct (eng_quit eng) as [[]|e4]; discriminate.
  - intros [mx [h [Hs [Hx [Ht [He Hq]]]]]].
    rewrite Hs, Hx, Ht, He, Hq. reflexivity.
Qed.
